(** * A model of [analyze_can_data.py]: decoding a CAN log with a DBC database

    The development follows the script top-down:
    - the Python built-ins the script relies on ([str.strip], [str.replace],
      [re.sub], [re.match], [int], [hex], [float], [bytes.fromhex]);
    - [normalize_data_field];
    - the objects of the [cantools] package the script reads (database,
      message, signal) and [Message.decode], behind an interface;
    - [decode_can_data], row by row, and [save_decoded_data];
    - the properties of the decoder.

    A Python [str] is modelled by [string]: a sequence of code points below
    256.  Interpreter resource limits (memory, the digit limit of [str] on an
    [int]) are outside the model; the digit limit of [int] on a [str] is in
    it. *)

From Stdlib Require Import ZArith List String Ascii Bool Lia.
From Stdlib.Strings Require Import Byte.
From Stdlib Require Import PrimFloat FloatOps SpecFloat.
From Stdlib Require Import Hexadecimal DecimalString HexadecimalString.
From Stdlib Require Import HexadecimalN.
Import ListNotations.

Local Open Scope string_scope.
Local Open Scope Z_scope.

(** ** Exceptions *)

Inductive exn : Type :=
| ValueError (msg : string)
| TypeError
| AttributeError
| OverflowError
| KeyError (key : string)
| DecodeError (msg : string).

Inductive result (A : Type) : Type :=
| Ok (a : A)
| Raise (e : exn).
Arguments Ok {A} a.
Arguments Raise {A} e.

(** ** Python strings *)

Module Py.

Definition code (c : ascii) : Z := Z.of_N (N_of_ascii c).

Definition in_range (lo hi : Z) (c : ascii) : bool :=
  (lo <=? code c) && (code c <=? hi).

(** [str.isspace] on one character, which is also what [str.strip()] removes
    and what [\s] matches in a [str] pattern. *)
Definition isspace (c : ascii) : bool :=
  in_range 9 13 c || in_range 28 32 c || (code c =? 133) || (code c =? 160).

(** The white space [int()] skips around a numeral: the C white space, and
    the two white-space characters above 127. *)
Definition int_space (c : ascii) : bool :=
  in_range 9 13 c || (code c =? 32) || (code c =? 133) || (code c =? 160).

Definition is_empty (s : string) : bool :=
  match s with EmptyString => true | String _ _ => false end.

Fixpoint lstrip (s : string) : string :=
  match s with
  | String c s' => if isspace c then lstrip s' else s
  | EmptyString => EmptyString
  end.

Fixpoint rstrip (s : string) : string :=
  match s with
  | String c s' =>
      let r := rstrip s' in
      if isspace c && is_empty r then EmptyString else String c r
  | EmptyString => EmptyString
  end.

(** [s.strip()] *)
Definition strip (s : string) : string := rstrip (lstrip s).

Fixpoint filter (keep : ascii -> bool) (s : string) : string :=
  match s with
  | String c s' => if keep c then String c (filter keep s') else filter keep s'
  | EmptyString => EmptyString
  end.

Definition is_quote (c : ascii) : bool := code c =? 34.

(** [s.replace(q, '')], where [q] is the double-quote character *)
Definition remove_quotes (s : string) : string :=
  filter (fun c => negb (is_quote c)) s.

(** [re.sub(r'\s+', '', s)] *)
Definition remove_whitespace (s : string) : string :=
  filter (fun c => negb (isspace c)) s.

Definition is_x (c : ascii) : bool := (code c =? 120) || (code c =? 88).

(** [re.sub(r'0x', '', s, flags=re.IGNORECASE)]: one pass from the left over
    non-overlapping matches. *)
Fixpoint remove_0x (s : string) : string :=
  match s with
  | String a t =>
      match t with
      | String b s' =>
          if (code a =? 48) && is_x b then remove_0x s'
          else String a (remove_0x t)
      | EmptyString => s
      end
  | EmptyString => EmptyString
  end.

Definition is_hex_digit (c : ascii) : bool :=
  in_range 48 57 c || in_range 65 70 c || in_range 97 102 c.

(** The tail [[0-9A-Fa-f]*$] of the pattern below: without [re.MULTILINE],
    [$] matches at the end and before a final newline. *)
Fixpoint hex_digits_to_end (s : string) : bool :=
  match s with
  | String c s' =>
      if is_hex_digit c then hex_digits_to_end s'
      else (code c =? 10) && is_empty s'
  | EmptyString => true
  end.

(** [re.match(r'^[0-9A-Fa-f]+$', s)] as a truth value *)
Definition match_hex (s : string) : bool :=
  match s with
  | String c s' => is_hex_digit c && hex_digits_to_end s'
  | EmptyString => false
  end.

(** [s.startswith('0x')] *)
Definition startswith_0x (s : string) : bool :=
  match s with
  | String a (String b _) => (code a =? 48) && (code b =? 120)
  | _ => false
  end.

(** [s[2:]] *)
Definition drop2 (s : string) : string :=
  match s with
  | String _ (String _ s') => s'
  | _ => EmptyString
  end.

Definition upper_char (c : ascii) : ascii :=
  if in_range 97 122 c then ascii_of_N (N_of_ascii c - 32) else c.

(** [s.upper()] on ASCII text; the script applies it to the output of
    [hex] only. *)
Fixpoint upper (s : string) : string :=
  match s with
  | String c s' => String (upper_char c) (upper s')
  | EmptyString => EmptyString
  end.

(** *** [int(s)] and [int(s, 16)] *)

(** The value of a character as a digit, in any base up to 36. *)
Definition digit_value (c : ascii) : option Z :=
  if in_range 48 57 c then Some (code c - 48)
  else if in_range 97 122 c then Some (code c - 87)
  else if in_range 65 90 c then Some (code c - 55)
  else None.

Definition is_digit (base : Z) (c : ascii) : bool :=
  match digit_value c with
  | Some d => d <? base
  | None => false
  end.

Definition is_underscore (c : ascii) : bool := code c =? 95.

(** The digits of a numeral, with single underscores between digits.
    [prev] tells that the previous character was an underscore.  The result
    is the value read, the number of digits and the unread rest; [None] is a
    syntax error. *)
Fixpoint scan_digits (base : Z) (s : string) (prev : bool) (acc : Z) (n : nat)
  : option (Z * nat * string) :=
  match s with
  | String c s' =>
      if is_underscore c then
        if prev then None else scan_digits base s' true acc n
      else
        match digit_value c with
        | Some d =>
            if d <? base then scan_digits base s' false (acc * base + d) (S n)
            else if prev then None else Some (acc, n, s)
        | None => if prev then None else Some (acc, n, s)
        end
  | EmptyString => if prev then None else Some (acc, n, s)
  end.

Fixpoint skip_int_space (s : string) : string :=
  match s with
  | String c s' => if int_space c then skip_int_space s' else s
  | EmptyString => EmptyString
  end.

Definition skip_sign (s : string) : bool * string :=
  match s with
  | String c s' =>
      if code c =? 43 then (false, s')
      else if code c =? 45 then (true, s')
      else (false, s)
  | EmptyString => (false, s)
  end.

(** In base 16 a [0x] or [0X] after the sign is skipped, and one underscore
    after it. *)
Definition skip_prefix (base : Z) (s : string) : string :=
  if base =? 16 then
    match s with
    | String a (String b s') =>
        if (code a =? 48) && is_x b then
          match s' with
          | String c s'' => if is_underscore c then s'' else s'
          | EmptyString => s'
          end
        else s
    | _ => s
    end
  else s.

Definition starts_with_underscore (s : string) : bool :=
  match s with
  | String c _ => is_underscore c
  | EmptyString => false
  end.

(** [sys.get_int_max_str_digits()], which the script leaves at its default. *)
Definition max_str_digits : nat := 4300.

(** A numeral of more than [max_str_digits] digits is refused, unless the
    base is a power of two. *)
Definition exceeds_limit (base : Z) (n : nat) : bool :=
  negb (Z.land base (base - 1) =? 0) && (max_str_digits <? n)%nat.

(** [int(s, base)] for base 10 and 16; [None] stands for [ValueError]. *)
Definition int (base : Z) (s : string) : option Z :=
  let (negative, s1) := skip_sign (skip_int_space s) in
  let s2 := skip_prefix base s1 in
  if starts_with_underscore s2 then None
  else
    match scan_digits base s2 false 0 0 with
    | Some (v, n, rest) =>
        if (Nat.eqb n 0) || exceeds_limit base n
           || negb (is_empty (skip_int_space rest))
        then None
        else Some (if negative then - v else v)
    | None => None
    end.

(** *** [hex(n)] and [str(n)] *)

Definition hex (z : Z) : string :=
  let digits := HexadecimalString.NilZero.string_of_uint (N.to_hex_uint (Z.abs_N z)) in
  if z <? 0 then "-0x" ++ digits else "0x" ++ digits.

Definition str_int (z : Z) : string :=
  DecimalString.NilZero.string_of_int (Z.to_int z).

(** *** [bytes.fromhex] on a string of hexadecimal digits *)

Definition byte_of_Z (z : Z) : byte :=
  match Byte.of_N (Z.to_N z) with
  | Some b => b
  | None => x00
  end.

(** [None] stands for [ValueError]: a character that is not a hexadecimal
    digit, or a digit without its pair.  ([bytes.fromhex] also skips ASCII
    white space between pairs; its argument here holds none.) *)
Fixpoint fromhex (s : string) : option (list byte) :=
  match s with
  | String a t =>
      match t with
      | String b s' =>
          if is_hex_digit a && is_hex_digit b then
            match digit_value a, digit_value b, fromhex s' with
            | Some h, Some l, Some bs => Some (byte_of_Z (16 * h + l) :: bs)
            | _, _, _ => None
            end
          else None
      | EmptyString => None
      end
  | EmptyString => Some []
  end.

End Py.

(** ** [normalize_data_field] *)

(** The two [ValueError]s raised inside the [try] are caught by its
    [except Exception] and raised again with the prefixed message. *)
Definition normalize_failed (msg : string) : result string :=
  Raise (ValueError ("Failed to normalize data field: " ++ msg)).

Definition normalize_data_field (data : string) : result string :=
  let data := Py.remove_quotes (Py.strip data) in
  let data := Py.remove_whitespace data in
  let data := Py.remove_0x data in
  if negb (Nat.even (String.length data)) then
    normalize_failed ("Invalid hex string length: " ++ data)
  else if negb (Py.match_hex data) then
    normalize_failed ("Invalid hex characters: " ++ data)
  else Ok data.

(** ** Python numbers *)

(** A Python [float] is a binary64 number, as the primitive [float]. *)
Inductive number : Type :=
| Int (z : Z)
| Float (f : float).

(** [float(z)] for an [int]: rounded to nearest even; [None] stands for
    [OverflowError]. *)
Definition float_of_Z (z : Z) : option float :=
  match binary_normalize prec emax z 0 false with
  | S754_infinity _ => None
  | sf => Some (SF2Prim sf)
  end.

(** [int(x)] when [x.is_integer()], else [None]. *)
Definition float_to_Z (f : float) : option Z :=
  match Prim2SF f with
  | S754_zero _ => Some 0
  | S754_finite s m e =>
      let sign v := if s then - v else v in
      if 0 <=? e then Some (sign (Z.pos m * 2 ^ e))
      else if Z.pos m mod 2 ^ (- e) =? 0 then Some (sign (Z.pos m / 2 ^ (- e)))
      else None
  | _ => None
  end.

Definition to_float (n : number) : result float :=
  match n with
  | Int z =>
      match float_of_Z z with
      | Some f => Ok f
      | None => Raise OverflowError
      end
  | Float f => Ok f
  end.

Definition arith (int_op : Z -> Z -> Z) (float_op : float -> float -> float)
  (a b : number) : result number :=
  match a, b with
  | Int x, Int y => Ok (Int (int_op x y))
  | _, _ =>
      match to_float a, to_float b with
      | Ok x, Ok y => Ok (Float (float_op x y))
      | Raise e, _ => Raise e
      | _, Raise e => Raise e
      end
  end.

(** [a * b] and [a + b] *)
Definition num_mul : number -> number -> result number :=
  arith Z.mul PrimFloat.mul.
Definition num_add : number -> number -> result number :=
  arith Z.add PrimFloat.add.

(** ** The objects of [cantools] the script reads *)

Inductive ByteOrder : Type := little_endian | big_endian.

(** A signal of a message.  [start] and [length] count bits; [choices] is
    [None] or a dictionary from raw values to labels. *)
Module Signal.
Record t : Type := {
  name : string;
  start : Z;
  length : Z;
  byte_order : ByteOrder;
  is_signed : bool;
  scale : number;
  offset : number;
  unit : option string;
  choices : option (list (Z * string))
}.
End Signal.

(** A message: [length] counts bytes, [signals] is the message's list of
    signals in the order the database keeps them. *)
Module Message.
Record t : Type := {
  frame_id : Z;
  name : string;
  length : nat;
  signals : list Signal.t
}.

(** [message.get_signal_by_name(name)] *)
Definition get_signal_by_name (message : t) (name : string) : result Signal.t :=
  match find (fun s => String.eqb (Signal.name s) name) (signals message) with
  | Some s => Ok s
  | None => Raise (KeyError name)
  end.
End Message.

Module Database.
Record t : Type := { messages : list Message.t }.
End Database.

(** A decoded value: an [int], a [float], or the named value of a choice
    (its raw value and its label). *)
Inductive SignalValue : Type :=
| VInt (z : Z)
| VFloat (f : float)
| VNamed (value : Z) (name : string).

(** The dictionary [message.decode] returns, in insertion order. *)
Definition SignalDict : Type := list (string * SignalValue).

(** [decoded[name] = value] *)
Fixpoint dict_set (d : SignalDict) (name : string) (value : SignalValue)
  : SignalDict :=
  match d with
  | (k, v) :: d' =>
      if String.eqb k name then (k, value) :: d'
      else (k, v) :: dict_set d' name value
  | [] => [(name, value)]
  end.

(** [message.decode(data_bytes, allow_truncated=True)], the one entry point
    of the library's codec the script calls. *)
Class Codec : Type := {
  decode : Message.t -> list byte -> result SignalDict
}.

(** ** [Message.decode] as [cantools] documents it

    The library is not part of the script.  This is its documented decoding
    of a plain message (no multiplexer, no container, integer-coded signals
    with unique names that fit in the message's [length]), called with
    [allow_truncated=True]: a payload shorter than the message is padded, and
    the signals that are not fully present in the received bytes are left out
    of the result. *)
Module Cantools.

Definition byte_value (b : byte) : Z := Z.of_N (Byte.to_N b).

(** The payload as an integer, first byte least or most significant. *)
Definition int_le (data : list byte) : Z :=
  fold_right (fun b acc => byte_value b + 256 * acc) 0 data.
Definition int_be (data : list byte) : Z :=
  fold_left (fun acc b => 256 * acc + byte_value b) data 0.

(** The position of the signal's first bit when the bits of the payload are
    counted from the most significant bit of byte 0 (big endian), or from
    the least significant one (little endian). *)
Definition sequential_startbit (s : Signal.t) : Z :=
  match Signal.byte_order s with
  | little_endian => Signal.start s
  | big_endian => 8 * (Signal.start s / 8) + (7 - Signal.start s mod 8)
  end.

(** The raw value of a signal in a payload of the message's length. *)
Definition unpack (data : list byte) (s : Signal.t) : Z :=
  let n := Signal.length s in
  let shifted :=
    match Signal.byte_order s with
    | little_endian => Z.shiftr (int_le data) (Signal.start s)
    | big_endian =>
        Z.shiftr (int_be data)
          (8 * Z.of_nat (List.length data) - sequential_startbit s - n)
    end in
  let raw := Z.land shifted (Z.ones n) in
  if Signal.is_signed s && Z.testbit raw (n - 1) then raw - 2 ^ n else raw.

(** [data.ljust(expected_length, b'\xff')[:expected_length]] *)
Definition pad (data : list byte) (expected_length : nat) : list byte :=
  firstn expected_length
    (data ++ repeat xff (expected_length - List.length data)).

(** Whether the signal is kept: all of them when the payload is not shorter
    than the message, else those fully within the received bytes. *)
Definition present (actual_length expected_length : nat) (s : Signal.t) : bool :=
  (expected_length <=? actual_length)%nat
  || (sequential_startbit s + Signal.length s <=? 8 * Z.of_nat actual_length).

Definition as_integer (n : number) : option Z :=
  match n with
  | Int z => Some z
  | Float f => float_to_Z f
  end.

Definition value_of (n : number) : SignalValue :=
  match n with
  | Int z => VInt z
  | Float f => VFloat f
  end.

(** The linear conversion [raw * scale + offset]: the raw value itself for
    scale 1 and offset 0, integer arithmetic when both are integral. *)
Definition linear (s : Signal.t) (raw : Z) : result SignalValue :=
  match as_integer (Signal.scale s), as_integer (Signal.offset s) with
  | Some a, Some b => Ok (VInt (raw * a + b))
  | _, _ =>
      match num_mul (Int raw) (Signal.scale s) with
      | Ok p =>
          match num_add p (Signal.offset s) with
          | Ok v => Ok (value_of v)
          | Raise e => Raise e
          end
      | Raise e => Raise e
      end
  end.

(** [choices.get(raw)] *)
Definition choice (table : list (Z * string)) (raw : Z) : option string :=
  match find (fun entry => fst entry =? raw) table with
  | Some entry => Some (snd entry)
  | None => None
  end.

(** [signal.conversion.raw_to_scaled(raw)] *)
Definition raw_to_scaled (s : Signal.t) (raw : Z) : result SignalValue :=
  match Signal.choices s with
  | Some table =>
      match choice table raw with
      | Some label => Ok (VNamed raw label)
      | None => linear s raw
      end
  | None => linear s raw
  end.

Fixpoint decode_data (data : list byte) (actual_length expected_length : nat)
  (signals : list Signal.t) (decoded : SignalDict) : result SignalDict :=
  match signals with
  | s :: rest =>
      if present actual_length expected_length s then
        match raw_to_scaled s (unpack data s) with
        | Ok v =>
            decode_data data actual_length expected_length rest
              (dict_set decoded (Signal.name s) v)
        | Raise e => Raise e
        end
      else decode_data data actual_length expected_length rest decoded
  | [] => Ok decoded
  end.

Definition message_decode (message : Message.t) (data : list byte)
  : result SignalDict :=
  let expected_length := Message.length message in
  decode_data (pad data expected_length) (List.length data) expected_length
    (Message.signals message) [].

End Cantools.

(** ** The records of [decoded_data] *)

(** A Python [str] made by the script.  The decimal text of a [float] is not
    computed: [FloatRepr f] is [str(f)], [FloatFixed3 f] is [f] formatted
    with [.3f]. *)
Inductive text : Type :=
| Text (s : string)
| FloatRepr (f : float)
| FloatFixed3 (f : float).

(** [str(value)] *)
Definition str (value : SignalValue) : text :=
  match value with
  | VInt z => Text (Py.str_int z)
  | VFloat f => FloatRepr f
  | VNamed _ name => Text name
  end.

(** [float(value)] *)
Definition float_of_value (value : SignalValue) : result float :=
  match value with
  | VInt z => to_float (Int z)
  | VFloat f => Ok f
  | VNamed _ _ => Raise TypeError
  end.

(** One dictionary of [decoded_data]; [None] is Python's [None]. *)
Module Decoded.
Record t : Type := {
  timestamp : string;
  can_id : string;
  message_name : string;
  signal_name : option string;
  raw_value : option SignalValue;
  physical_value : option float;
  state : option text;
  unit : option string
}.
End Decoded.

(** One row of the [csv.DictReader]: a field is [None] when the line is
    shorter than the header. *)
Module Row.
Record t : Type := {
  timestamp : option string;
  can_id : option string;
  data : option string
}.
End Row.

(** ** [decode_can_data] *)

Section Decoder.

Context {codec : Codec}.

(** The truth value of [signal.choices]: false for [None] and for an empty
    dictionary. *)
Definition has_choices (signal : Signal.t) : bool :=
  match Signal.choices signal with
  | Some (_ :: _) => true
  | _ => false
  end.

(** [signal.unit or ''] *)
Definition unit_or_empty (signal : Signal.t) : string :=
  match Signal.unit signal with
  | Some u => u
  | None => ""
  end.

(** The record with no signal, for an unknown frame or a failed decode. *)
Definition message_only (timestamp : string) (can_id : Z) (message_name : string)
  : Decoded.t :=
  {| Decoded.timestamp := timestamp;
     Decoded.can_id := Py.hex can_id;
     Decoded.message_name := message_name;
     Decoded.signal_name := None;
     Decoded.raw_value := None;
     Decoded.physical_value := None;
     Decoded.state := None;
     Decoded.unit := None |}.

(** [f"Unknown_{hex(can_id)[2:].upper()}"] *)
Definition unknown_name (can_id : Z) : string :=
  "Unknown_" ++ Py.upper (Py.drop2 (Py.hex can_id)).

(** The body of the loop over [decoded_signals.items()]. *)
Definition signal_record (timestamp : string) (can_id : Z) (message : Message.t)
  (item : string * SignalValue) : result Decoded.t :=
  let (signal_name, value) := item in
  match Message.get_signal_by_name message signal_name with
  | Raise e => Raise e
  | Ok signal =>
      let state := if has_choices signal then Some (str value) else None in
      let physical_value :=
        if negb (has_choices signal) then
          match float_of_value value with
          | Ok f => Ok (Some f)
          | Raise e => Raise e
          end
        else Ok None in
      match physical_value with
      | Raise e => Raise e
      | Ok physical_value =>
          Ok {| Decoded.timestamp := timestamp;
                Decoded.can_id := Py.hex can_id;
                Decoded.message_name := Message.name message;
                Decoded.signal_name := Some signal_name;
                Decoded.raw_value := Some value;
                Decoded.physical_value := physical_value;
                Decoded.state := state;
                Decoded.unit := Some (unit_or_empty signal) |}
      end
  end.

(** The loop: the records appended, and the exception that stopped it, if
    any. *)
Fixpoint signal_records (timestamp : string) (can_id : Z) (message : Message.t)
  (items : SignalDict) : list Decoded.t * option exn :=
  match items with
  | item :: rest =>
      match signal_record timestamp can_id message item with
      | Ok r =>
          let (rs, e) := signal_records timestamp can_id message rest in
          (r :: rs, e)
      | Raise e => ([], Some e)
      end
  | [] => ([], None)
  end.

(** The [try] around [message.decode]: what one known frame appends. *)
Definition decode_signals (timestamp : string) (can_id : Z) (message : Message.t)
  (data_bytes : list byte) : list Decoded.t :=
  let failed := message_only timestamp can_id (Message.name message) in
  match decode message data_bytes with
  | Ok decoded_signals =>
      match signal_records timestamp can_id message decoded_signals with
      | (records, None) => records
      | (records, Some _) => records ++ [failed]
      end
  | Raise _ => [failed]
  end.

(** The first message of the database with this frame id. *)
Definition find_message (db : Database.t) (can_id : Z) : option Message.t :=
  find (fun msg => Message.frame_id msg =? can_id) (Database.messages db).

(** What one frame appends to [decoded_data]. *)
Definition decode_frame (db : Database.t) (timestamp : string) (can_id : Z)
  (data_bytes : list byte) : list Decoded.t :=
  match find_message db can_id with
  | None => [message_only timestamp can_id (unknown_name can_id)]
  | Some message => decode_signals timestamp can_id message data_bytes
  end.

(** [field.strip().replace(q, '')], where [q] is the double-quote character *)
Definition clean (field : string) : string :=
  Py.remove_quotes (Py.strip field).

(** [int(can_id_str, 16) if can_id_str.startswith('0x') else int(can_id_str)] *)
Definition parse_can_id (can_id_str : string) : option Z :=
  if Py.startswith_0x can_id_str then Py.int 16 can_id_str
  else Py.int 10 can_id_str.

(** Why a row is skipped, after the message the script logs. *)
Inductive SkipReason : Type :=
| MissingField
| InvalidCanId (can_id_str : string)
| InvalidData (data : string) (e : exn)
| RowError (e : exn).

(** The frame of a row, or why it has none. *)
Inductive Frame : Type :=
| Skip (reason : SkipReason)
| Accept (timestamp : string) (can_id : Z) (data_bytes : list byte).

(** The body of the loop over the rows, up to the lookup of the message. *)
Definition read_row (row : Row.t) : Frame :=
  match Row.timestamp row, Row.can_id row with
  | Some timestamp_field, Some can_id_field =>
      let timestamp := clean timestamp_field in
      let can_id_str := clean can_id_field in
      match Row.data row with
      | Some data =>
          if Py.is_empty timestamp || Py.is_empty can_id_str || Py.is_empty data
          then Skip MissingField
          else
            match parse_can_id can_id_str with
            | None => Skip (InvalidCanId can_id_str)
            | Some can_id =>
                match normalize_data_field data with
                | Raise e => Skip (InvalidData data e)
                | Ok normalized_data =>
                    match Py.fromhex normalized_data with
                    | None =>
                        Skip (InvalidData data (ValueError "non-hexadecimal number found in fromhex() arg"))
                    | Some data_bytes => Accept timestamp can_id data_bytes
                    end
                end
            end
      | None => Skip MissingField
      end
  | _, _ => Skip (RowError AttributeError)
  end.

(** The local variables of [decode_can_data]. *)
Record State : Type := {
  decoded_data : list Decoded.t;
  row_count : nat;
  skipped_rows : nat
}.

Definition initial : State :=
  {| decoded_data := []; row_count := 0; skipped_rows := 0 |}.

(** One turn of the loop over the rows. *)
Definition process_row (db : Database.t) (st : State) (row : Row.t) : State :=
  match read_row row with
  | Skip _ =>
      {| decoded_data := decoded_data st;
         row_count := S (row_count st);
         skipped_rows := S (skipped_rows st) |}
  | Accept timestamp can_id data_bytes =>
      {| decoded_data := decoded_data st ++ decode_frame db timestamp can_id data_bytes;
         row_count := S (row_count st);
         skipped_rows := skipped_rows st |}
  end.

Definition required_columns : list string := ["timestamp"; "can_id"; "data"].

(** [col in reader.fieldnames] *)
Definition has_column (fieldnames : list string) (col : string) : bool :=
  existsb (String.eqb col) fieldnames.

(** How [decode_can_data] ends: it returns, or it raises; either way with
    the local variables as they are then. *)
Inductive Outcome : Type :=
| Returned (st : State)
| Raised (e : exn) (st : State).

(** [decode_can_data] on an opened file whose reader raises nowhere:
    [fieldnames] is the header of the reader ([None] for an empty file) and
    [rows] are the rows it yields.  The exceptions of the reader are added
    by [decode_can_data_from]. *)
Definition decode_can_data (fieldnames : option (list string)) (rows : list Row.t)
  (db : Database.t) : Outcome :=
  match fieldnames with
  | None => Raised TypeError initial
  | Some names =>
      if negb (forallb (has_column names) required_columns) then
        Raised (ValueError "CSV must have columns: timestamp,can_id,data") initial
      else Returned (fold_left (process_row db) rows initial)
  end.

End Decoder.

(** ** [save_decoded_data] *)

(** A value handed to the [csv] writer: an object of the decoder, written
    as its [str], or a string. *)
Inductive cell : Type :=
| Object (value : SignalValue)
| Str (t : text).

(** The text the writer puts in the file for a cell. *)
Definition written (c : cell) : text :=
  match c with
  | Object value => str value
  | Str t => t
  end.

(** One dictionary given to [writer.writerow]. *)
Module Output.
Record t : Type := {
  timestamp : string;
  can_id : string;
  message_name : string;
  signal_name : string;
  raw_value : cell;
  physical_value : text;
  state : text;
  unit : string
}.
End Output.

Definition headers : list string :=
  ["timestamp"; "can_id"; "message_name"; "signal_name"; "raw_value";
   "physical_value"; "state"; "unit"].

(** [x or default] for an optional string *)
Definition string_or (x : option string) (default : string) : string :=
  match x with
  | Some s => if Py.is_empty s then default else s
  | None => default
  end.

(** [x or default] for an optional text; the text of a [float] is never
    empty. *)
Definition text_or (x : option text) (default : string) : text :=
  match x with
  | Some (Text s) => if Py.is_empty s then Text default else Text s
  | Some t => t
  | None => Text default
  end.

Definition output_row (row : Decoded.t) : Output.t :=
  {| Output.timestamp := Decoded.timestamp row;
     Output.can_id := Decoded.can_id row;
     Output.message_name := Decoded.message_name row;
     Output.signal_name := string_or (Decoded.signal_name row) "N/A";
     Output.raw_value :=
       match Decoded.raw_value row with
       | Some value => Object value
       | None => Str (Text "N/A")
       end;
     Output.physical_value :=
       match Decoded.physical_value row with
       | Some f => FloatFixed3 f
       | None => Text "N/A"
       end;
     Output.state := text_or (Decoded.state row) "N/A";
     Output.unit := string_or (Decoded.unit row) "" |}.

(** The header and the rows written to the output file. *)
Definition save_decoded_data (decoded_data : list Decoded.t)
  : list string * list Output.t :=
  (headers, map output_row decoded_data).

(** The script decodes with [cantools]. *)
#[global] Instance cantools : Codec := {| decode := Cantools.message_decode |}.

(** ** [decode_can_data] on a reader that may raise *)

(** An exception of the [csv] reader, or of the decoding of the file it
    reads. *)
Inductive ReaderError : Type :=
| CsvError (msg : string)
| UnicodeDecodeError (msg : string).

(** What the [csv.DictReader] of the log gives: its header, which may raise
    when it is read, then the rows it yields, and then the end of the file
    or an exception. *)
Module Reader.
Record t : Type := {
  fieldnames : ReaderError + option (list string);
  rows : list Row.t;
  stops : option ReaderError
}.
End Reader.

(** How [decode_can_data] ends on a reader: it returns, the check of the
    header raises, or the reader raises; each with the local variables as
    they are then.  All the exceptions are logged and raised again. *)
Inductive Ending : Type :=
| Ends (st : State)
| HeaderRaises (e : exn) (st : State)
| ReaderRaises (err : ReaderError) (st : State).

(** The loop reads the reader outside the [try] of a row: an exception of
    the reader leaves the function after the rows yielded before it. *)
Definition decode_can_data_from {codec : Codec} (reader : Reader.t)
  (db : Database.t) : Ending :=
  match Reader.fieldnames reader with
  | inl err => ReaderRaises err initial
  | inr fieldnames =>
      match decode_can_data fieldnames (Reader.rows reader) db with
      | Raised e st => HeaderRaises e st
      | Returned st =>
          match Reader.stops reader with
          | Some err => ReaderRaises err st
          | None => Ends st
          end
      end
  end.

(** ** [parse_dbc] and [main] *)

(** Why [main] logs that the analysis failed before anything is saved. *)
Inductive Failure : Type :=
| DbcNotFound
| DbcNotLoaded (e : exn)
| CsvNotOpened
| HeaderRaised (e : exn)
| ReaderRaised (err : ReaderError).

(** The two files [main] reads.  For the database: [None] when the file
    does not exist, and else what [cantools.database.load_file] returns or
    raises.  For the log: [None] when it cannot be opened, and else its
    reader. *)
Record Files : Type := {
  dbc_file : option (result Database.t);
  csv_file : option Reader.t
}.

(** [parse_dbc]: the exception is logged and raised again. *)
Definition parse_dbc (dbc_file : option (result Database.t))
  : Failure + Database.t :=
  match dbc_file with
  | None => inl DbcNotFound
  | Some (Raise e) => inl (DbcNotLoaded e)
  | Some (Ok db) => inr db
  end.

(** How far [main] gets: it calls [save_decoded_data], which has this
    header and these rows to write once the output file is open (opening
    it, or encoding a row for it, may still raise), or it fails before and
    [save_decoded_data] is not called. *)
Inductive Run : Type :=
| Saves (header : list string) (rows : list Output.t)
| AnalysisFailed (why : Failure).

Definition main {codec : Codec} (files : Files) : Run :=
  match parse_dbc (dbc_file files) with
  | inl why => AnalysisFailed why
  | inr db =>
      match csv_file files with
      | None => AnalysisFailed CsvNotOpened
      | Some reader =>
          match decode_can_data_from reader db with
          | HeaderRaises e _ => AnalysisFailed (HeaderRaised e)
          | ReaderRaises err _ => AnalysisFailed (ReaderRaised err)
          | Ends st =>
              let (header, written_rows) := save_decoded_data (decoded_data st) in
              Saves header written_rows
          end
      end
  end.

(** ** Notions the properties are stated with *)

(** All the characters of a string satisfy [p]. *)
Fixpoint all_chars (p : ascii -> bool) (s : string) : bool :=
  match s with
  | String c s' => p c && all_chars p s'
  | EmptyString => true
  end.

(** A normalized data field: hexadecimal digits only, an even number of
    them, at least two. *)
Definition normalized (s : string) : bool :=
  negb (Py.is_empty s) && Nat.even (String.length s)
  && all_chars Py.is_hex_digit s.

(** The data field before its length and its characters are checked. *)
Definition stripped (data : string) : string :=
  Py.remove_0x (Py.remove_whitespace (Py.remove_quotes (Py.strip data))).

(** What a skipped row does to the local variables. *)
Definition skipped (st : State) : State :=
  {| decoded_data := decoded_data st;
     row_count := S (row_count st);
     skipped_rows := S (skipped_rows st) |}.

(** The digits of a number in base 16 with the letters in upper case: the
    uppercase-hex of the specification. *)
Fixpoint upper_digits (d : Hexadecimal.uint) : string :=
  match d with
  | Hexadecimal.Nil => ""
  | Hexadecimal.D0 d => String "0" (upper_digits d)
  | Hexadecimal.D1 d => String "1" (upper_digits d)
  | Hexadecimal.D2 d => String "2" (upper_digits d)
  | Hexadecimal.D3 d => String "3" (upper_digits d)
  | Hexadecimal.D4 d => String "4" (upper_digits d)
  | Hexadecimal.D5 d => String "5" (upper_digits d)
  | Hexadecimal.D6 d => String "6" (upper_digits d)
  | Hexadecimal.D7 d => String "7" (upper_digits d)
  | Hexadecimal.D8 d => String "8" (upper_digits d)
  | Hexadecimal.D9 d => String "9" (upper_digits d)
  | Hexadecimal.Da d => String "A" (upper_digits d)
  | Hexadecimal.Db d => String "B" (upper_digits d)
  | Hexadecimal.Dc d => String "C" (upper_digits d)
  | Hexadecimal.Dd d => String "D" (upper_digits d)
  | Hexadecimal.De d => String "E" (upper_digits d)
  | Hexadecimal.Df d => String "F" (upper_digits d)
  end.

Definition uppercase_hex (frame_id : Z) : string :=
  match N.to_hex_uint (Z.to_N frame_id) with
  | Hexadecimal.Nil => "0"
  | d => upper_digits d
  end.

(** The value of a string of digits read in a base. *)
Fixpoint numeral_from (base : Z) (acc : Z) (digits : string) : Z :=
  match digits with
  | String c digits' =>
      match Py.digit_value c with
      | Some d => numeral_from base (acc * base + d) digits'
      | None => acc
      end
  | EmptyString => acc
  end.

Definition numeral (base : Z) (digits : string) : Z := numeral_from base 0 digits.

Definition is_decimal_digit (c : ascii) : bool := Py.in_range 48 57 c.




(** The label of a raw value in the choices of a signal, if any. *)
Definition label (signal : Signal.t) (raw : Z) : option string :=
  match Signal.choices signal with
  | Some table => Cantools.choice table raw
  | None => None
  end.

(** What one row appends to [decoded_data]. *)
Definition row_records {codec : Codec} (db : Database.t) (row : Row.t)
  : list Decoded.t :=
  match read_row row with
  | Skip _ => []
  | Accept timestamp can_id data_bytes =>
      decode_frame db timestamp can_id data_bytes
  end.

(** Whether a row is skipped. *)
Definition is_skipped (row : Row.t) : bool :=
  match read_row row with
  | Skip _ => true
  | Accept _ _ _ => false
  end.

(** The header has the three columns the script reads. *)
Definition complete (fieldnames : option (list string)) : Prop :=
  exists names,
    fieldnames = Some names /\ forall col, In col required_columns -> In col names.

(** A record without signal, and a record of a signal: the second has
    exactly one of [state] and [physical_value]. *)
Definition no_signal (r : Decoded.t) : Prop :=
  Decoded.signal_name r = None
  /\ Decoded.raw_value r = None
  /\ Decoded.physical_value r = None
  /\ Decoded.state r = None
  /\ Decoded.unit r = None.

Definition of_signal (r : Decoded.t) : Prop :=
  Decoded.signal_name r <> None
  /\ Decoded.raw_value r <> None
  /\ Decoded.unit r <> None
  /\ ((Decoded.state r = None /\ Decoded.physical_value r <> None)
      \/ (Decoded.state r <> None /\ Decoded.physical_value r = None)).

(** ** A database for the examples

    Message [EngineData], id [0x123], eight bytes: [RPM] in bits 0 to 15,
    little endian, unsigned, scale 0.25; [Status] in bits 16 to 23 with the
    choice [2: FAULT]. *)
Module Example.

Definition RPM : Signal.t :=
  {| Signal.name := "RPM";
     Signal.start := 0;
     Signal.length := 16;
     Signal.byte_order := little_endian;
     Signal.is_signed := false;
     Signal.scale := Float 0.25;
     Signal.offset := Int 0;
     Signal.unit := Some "rpm";
     Signal.choices := None |}.

Definition Status : Signal.t :=
  {| Signal.name := "Status";
     Signal.start := 16;
     Signal.length := 8;
     Signal.byte_order := little_endian;
     Signal.is_signed := false;
     Signal.scale := Int 1;
     Signal.offset := Int 0;
     Signal.unit := None;
     Signal.choices := Some [(2, "FAULT")] |}.

Definition EngineData : Message.t :=
  {| Message.frame_id := 291;
     Message.name := "EngineData";
     Message.length := 8;
     Message.signals := [RPM; Status] |}.

Definition db : Database.t := {| Database.messages := [EngineData] |}.

Definition header : list string := ["timestamp"; "can_id"; "data"].

Definition row (timestamp can_id data : string) : Row.t :=
  {| Row.timestamp := Some timestamp;
     Row.can_id := Some can_id;
     Row.data := Some data |}.

(** The payload [E8 03 02 00 00 00 00 00]: 1000 in [RPM], 2 in [Status]. *)
Definition payload : list byte := [xe8; x03; x02; x00; x00; x00; x00; x00].

(** The record of [Status] for the payload [E8 03 03]. *)
Definition status_3 : Decoded.t :=
  {| Decoded.timestamp := "0.0";
     Decoded.can_id := "0x123";
     Decoded.message_name := "EngineData";
     Decoded.signal_name := Some "Status";
     Decoded.raw_value := Some (VInt 3);
     Decoded.physical_value := None;
     Decoded.state := Some (Text "3");
     Decoded.unit := Some "" |}.

(** Two rows: the frame [0x123] with the payload [E8 03 03], and a row with
    an identifier that is not a numeral. *)
Definition rows : list Row.t :=
  [row "0.0" "0x123" "E8 03 03"; row "0.1" "0X123" "00"].

End Example.

(** * Properties *)

(** ** Characters *)

Ltac char_cases c :=
  destruct c as [[] [] [] [] [] [] [] []]; vm_compute; try reflexivity;
  try discriminate; auto.

Lemma hex_digit_not_space c :
  Py.is_hex_digit c = true -> Py.isspace c = false.
Proof. char_cases c. Qed.

Lemma hex_digit_not_quote c :
  Py.is_hex_digit c = true -> Py.is_quote c = false.
Proof. char_cases c. Qed.

Lemma hex_digit_not_x c :
  Py.is_hex_digit c = true -> Py.is_x c = false.
Proof. char_cases c. Qed.

Lemma newline_is_space c :
  (Py.code c =? 10) = true -> Py.isspace c = true.
Proof. char_cases c. Qed.

(** ** Strings *)

Lemma all_chars_impl (p q : ascii -> bool) s :
  (forall c, p c = true -> q c = true) ->
  all_chars p s = true -> all_chars q s = true.
Proof.
  intros Hpq. induction s as [|c s IH]; simpl; [reflexivity|].
  rewrite !andb_true_iff. intros [Hc Hs]. split; auto.
Qed.

Lemma all_chars_filter p s : all_chars p (Py.filter p s) = true.
Proof.
  induction s as [|c s IH]; simpl; [reflexivity|].
  destruct (p c) eqn:Hc; simpl; [rewrite Hc|]; exact IH.
Qed.

Lemma filter_all_chars p s : all_chars p s = true -> Py.filter p s = s.
Proof.
  induction s as [|c s IH]; simpl; [reflexivity|].
  rewrite andb_true_iff. intros [Hc Hs]. rewrite Hc, IH by exact Hs.
  reflexivity.
Qed.

(** [remove_0x] only deletes characters.  The statement covers the string
    and its extension by one character, as the function steps by two. *)
Lemma all_chars_remove_0x p s :
  (all_chars p s = true -> all_chars p (Py.remove_0x s) = true)
  /\ (forall a, all_chars p (String a s) = true ->
                all_chars p (Py.remove_0x (String a s)) = true).
Proof.
  induction s as [|b s [IH1 IH2]].
  - split; intros; assumption.
  - split.
    + apply IH2.
    + intros a H. change (Py.remove_0x (String a (String b s)))
        with (if (Py.code a =? 48) && Py.is_x b then Py.remove_0x s
              else String a (Py.remove_0x (String b s))).
      simpl in H. apply andb_true_iff in H as [Ha H].
      pose proof H as Hbs. apply andb_true_iff in H as [Hb Hs].
      destruct ((Py.code a =? 48) && Py.is_x b).
      * apply IH1, Hs.
      * change (p a && all_chars p (Py.remove_0x (String b s)) = true).
        rewrite Ha. simpl. apply IH2. simpl. exact Hbs.
Qed.

Lemma remove_0x_hex s :
  (all_chars Py.is_hex_digit s = true -> Py.remove_0x s = s)
  /\ (forall a, all_chars Py.is_hex_digit (String a s) = true ->
                Py.remove_0x (String a s) = String a s).
Proof.
  induction s as [|b s [IH1 IH2]].
  - split; intros; reflexivity.
  - split.
    + apply IH2.
    + intros a H. change (Py.remove_0x (String a (String b s)))
        with (if (Py.code a =? 48) && Py.is_x b then Py.remove_0x s
              else String a (Py.remove_0x (String b s))).
      simpl in H. apply andb_true_iff in H as [Ha H].
      pose proof H as Hbs. apply andb_true_iff in H as [Hb Hs].
      rewrite (hex_digit_not_x b Hb), andb_false_r.
      f_equal. apply IH2. simpl. exact Hbs.
Qed.

Lemma lstrip_no_space s :
  all_chars (fun c => negb (Py.isspace c)) s = true -> Py.lstrip s = s.
Proof.
  destruct s as [|c s]; simpl; [reflexivity|].
  rewrite andb_true_iff, negb_true_iff. intros [-> _]. reflexivity.
Qed.

Lemma rstrip_no_space s :
  all_chars (fun c => negb (Py.isspace c)) s = true -> Py.rstrip s = s.
Proof.
  induction s as [|c s IH]; simpl; [reflexivity|].
  rewrite andb_true_iff, negb_true_iff. intros [-> Hs].
  rewrite IH by exact Hs. reflexivity.
Qed.

Lemma strip_no_space s :
  all_chars (fun c => negb (Py.isspace c)) s = true -> Py.strip s = s.
Proof.
  intros H. unfold Py.strip. rewrite lstrip_no_space by exact H.
  apply rstrip_no_space, H.
Qed.

Lemma hex_digits_to_end_no_space s :
  all_chars (fun c => negb (Py.isspace c)) s = true ->
  Py.hex_digits_to_end s = true -> all_chars Py.is_hex_digit s = true.
Proof.
  induction s as [|c s IH]; simpl; [reflexivity|].
  rewrite andb_true_iff, negb_true_iff. intros [Hc Hs].
  destruct (Py.is_hex_digit c) eqn:Hh; simpl.
  - apply IH, Hs.
  - rewrite andb_true_iff. intros [Hn _].
    apply newline_is_space in Hn. congruence.
Qed.

Lemma hex_digits_to_end_hex s :
  all_chars Py.is_hex_digit s = true -> Py.hex_digits_to_end s = true.
Proof.
  induction s as [|c s IH]; simpl; [reflexivity|].
  rewrite andb_true_iff. intros [-> Hs]. apply IH, Hs.
Qed.

(** ** [normalize_data_field] *)

Lemma normalize_data_field_stripped data :
  normalize_data_field data =
  if negb (Nat.even (String.length (stripped data))) then
    normalize_failed ("Invalid hex string length: " ++ stripped data)
  else if negb (Py.match_hex (stripped data)) then
    normalize_failed ("Invalid hex characters: " ++ stripped data)
  else Ok (stripped data).
Proof. reflexivity. Qed.

Lemma stripped_no_space data :
  all_chars (fun c => negb (Py.isspace c)) (stripped data) = true.
Proof.
  unfold stripped, Py.remove_whitespace.
  apply all_chars_remove_0x, all_chars_filter.
Qed.

Lemma normalize_data_field_ok data t :
  normalize_data_field data = Ok t ->
  t = stripped data /\ normalized t = true.
Proof.
  rewrite normalize_data_field_stripped.
  destruct (Nat.even (String.length (stripped data))) eqn:Heven; simpl;
    [|discriminate].
  destruct (Py.match_hex (stripped data)) eqn:Hm; simpl; [|discriminate].
  intros [= <-]. split; [reflexivity|].
  pose proof (stripped_no_space data) as Hsp.
  unfold normalized. rewrite Heven.
  destruct (stripped data) as [|c s]; [discriminate|].
  simpl in *. apply andb_true_iff in Hm as [Hc Hs].
  apply andb_true_iff in Hsp as [_ Hsp].
  rewrite Hc. simpl. apply hex_digits_to_end_no_space; assumption.
Qed.

Lemma stripped_normalized t : normalized t = true -> stripped t = t.
Proof.
  unfold normalized. rewrite !andb_true_iff. intros [[_ _] Hhex].
  assert (Hsp : all_chars (fun c => negb (Py.isspace c)) t = true).
  { apply all_chars_impl with (2 := Hhex). intros c Hc.
    rewrite (hex_digit_not_space c Hc). reflexivity. }
  assert (Hq : all_chars (fun c => negb (Py.is_quote c)) t = true).
  { apply all_chars_impl with (2 := Hhex). intros c Hc.
    rewrite (hex_digit_not_quote c Hc). reflexivity. }
  unfold stripped, Py.remove_whitespace, Py.remove_quotes.
  rewrite strip_no_space by exact Hsp.
  rewrite (filter_all_chars _ t Hq), (filter_all_chars _ t Hsp).
  apply remove_0x_hex, Hhex.
Qed.

Lemma normalize_data_field_normalized t :
  normalized t = true -> normalize_data_field t = Ok t.
Proof.
  intros H. rewrite normalize_data_field_stripped, (stripped_normalized t H).
  unfold normalized in H. rewrite !andb_true_iff in H.
  destruct H as [[Hne Heven] Hhex]. rewrite Heven. simpl.
  destruct t as [|c s]; [discriminate|]. simpl in *.
  apply andb_true_iff in Hhex as [-> Hs].
  rewrite (hex_digits_to_end_hex s Hs). reflexivity.
Qed.

(** ** Rows *)

Lemma read_row_accept row timestamp can_id data_bytes :
  read_row row = Accept timestamp can_id data_bytes ->
  exists timestamp_field can_id_field data normalized_data,
    Row.timestamp row = Some timestamp_field
    /\ Row.can_id row = Some can_id_field
    /\ Row.data row = Some data
    /\ timestamp = clean timestamp_field
    /\ parse_can_id (clean can_id_field) = Some can_id
    /\ normalize_data_field data = Ok normalized_data
    /\ Py.fromhex normalized_data = Some data_bytes.
Proof.
  unfold read_row.
  destruct (Row.timestamp row) as [tf|]; [|discriminate].
  destruct (Row.can_id row) as [cf|]; [|discriminate].
  destruct (Row.data row) as [d|]; [|discriminate].
  destruct (_ || _); [discriminate|].
  destruct (parse_can_id (clean cf)) as [id|] eqn:Hid; [|discriminate].
  destruct (normalize_data_field d) as [t|e] eqn:Hn; [|discriminate].
  destruct (Py.fromhex t) as [bs|] eqn:Hb; [|discriminate].
  intros [= <- <- <-]. exists tf, cf, d, t. repeat split; assumption.
Qed.

Lemma fromhex_nonempty s data_bytes :
  Py.is_empty s = false -> Py.fromhex s = Some data_bytes -> data_bytes <> [].
Proof.
  destruct s as [|a [|b s]]; simpl; try discriminate.
  intros _.
  destruct (Py.is_hex_digit a && Py.is_hex_digit b); [|discriminate].
  destruct (Py.digit_value a), (Py.digit_value b), (Py.fromhex s);
    discriminate || (intros [= <-]; discriminate).
Qed.

Lemma hex_digit_has_value c :
  Py.is_hex_digit c = true -> exists d, Py.digit_value c = Some d.
Proof. char_cases c; eauto. Qed.

(** [bytes.fromhex] accepts every even number of hexadecimal digits, so a
    normalized data field always gives a payload. *)
Lemma fromhex_hex_digits s :
  (Nat.even (String.length s) = true -> all_chars Py.is_hex_digit s = true ->
   exists data_bytes, Py.fromhex s = Some data_bytes)
  /\ (forall a,
        Nat.even (String.length (String a s)) = true ->
        all_chars Py.is_hex_digit (String a s) = true ->
        exists data_bytes, Py.fromhex (String a s) = Some data_bytes).
Proof.
  induction s as [|b s [IH1 IH2]].
  - split; [intros _ _; exists []; reflexivity|]. intros a H. discriminate.
  - split; [apply IH2|]. intros a Heven Hhex.
    change (Nat.even (String.length s) = true) in Heven.
    simpl in Hhex. apply andb_true_iff in Hhex as [Ha Hhex].
    apply andb_true_iff in Hhex as [Hb Hs].
    destruct (IH1 Heven Hs) as [bs Hbs].
    destruct (hex_digit_has_value a Ha) as [h Hh].
    destruct (hex_digit_has_value b Hb) as [l Hl].
    exists (Py.byte_of_Z (16 * h + l) :: bs).
    cbn [Py.fromhex]. rewrite Ha, Hb, Hh, Hl, Hbs. reflexivity.
Qed.

Lemma normalized_nonempty t : normalized t = true -> Py.is_empty t = false.
Proof.
  unfold normalized. rewrite !andb_true_iff, negb_true_iff. tauto.
Qed.

Section Properties.

Context {codec : Codec}.

Lemma process_row_skip db st row reason :
  read_row row = Skip reason -> process_row db st row = skipped st.
Proof. unfold process_row. intros ->. reflexivity. Qed.

Lemma process_row_accept db st row timestamp can_id data_bytes :
  read_row row = Accept timestamp can_id data_bytes ->
  decoded_data (process_row db st row)
  = (decoded_data st ++ decode_frame db timestamp can_id data_bytes)%list
  /\ row_count (process_row db st row) = S (row_count st)
  /\ skipped_rows (process_row db st row) = skipped_rows st.
Proof. unfold process_row. intros ->. repeat split. Qed.

(** ** The records of one frame *)

Lemma signal_record_fields timestamp can_id message name value r :
  signal_record timestamp can_id message (name, value) = Ok r ->
  Decoded.timestamp r = timestamp
  /\ Decoded.message_name r = Message.name message
  /\ Decoded.signal_name r = Some name
  /\ Decoded.raw_value r = Some value.
Proof.
  unfold signal_record.
  destruct (Message.get_signal_by_name message name) as [s|]; [|discriminate].
  destruct (negb (has_choices s)); [destruct (float_of_value value)|];
    try discriminate; intros [= <-]; repeat split.
Qed.

(** The loop appends one record per item, in order, up to the item at which
    it stops. *)
Lemma signal_records_spec timestamp can_id message items :
  exists n,
    (n <= List.length items)%nat
    /\ map Decoded.signal_name (fst (signal_records timestamp can_id message items))
       = map (fun item => Some (fst item)) (firstn n items)
    /\ (snd (signal_records timestamp can_id message items) = None
        <-> n = List.length items)
    /\ forall r, In r (fst (signal_records timestamp can_id message items)) ->
         Decoded.timestamp r = timestamp
         /\ Decoded.message_name r = Message.name message
         /\ Decoded.signal_name r <> None
         /\ Decoded.raw_value r <> None.
Proof.
  induction items as [|[name value] rest (n & Hn & Hnames & Hend & Hall)];
    cbn [signal_records].
  - exists 0%nat. simpl. repeat split; auto; contradiction.
  - destruct (signal_record timestamp can_id message (name, value)) as [r|e] eqn:Hr.
    + destruct (signal_records timestamp can_id message rest) as [rs e'].
      simpl in *. exists (S n). split; [lia|]. split; [|split].
      * apply signal_record_fields in Hr as (_ & _ & Hs & _).
        simpl. rewrite Hs. f_equal. exact Hnames.
      * rewrite Hend. lia.
      * intros r' [<-|Hin]; [|apply Hall, Hin].
        apply signal_record_fields in Hr as (Ht & Hm & Hs & Hv).
        rewrite Ht, Hm, Hs, Hv. repeat split; discriminate.
    + exists 0%nat. simpl. repeat split; try lia; try discriminate; contradiction.
Qed.

Lemma decode_frame_timestamp db timestamp can_id data_bytes r :
  In r (decode_frame db timestamp can_id data_bytes) ->
  Decoded.timestamp r = timestamp.
Proof.
  unfold decode_frame, decode_signals.
  destruct (find_message db can_id) as [m|].
  - destruct (decode m data_bytes) as [d|e].
    + destruct (signal_records_spec timestamp can_id m d) as (n & _ & _ & _ & Hall).
      destruct (signal_records timestamp can_id m d) as [rs [e|]]; simpl in Hall.
      * rewrite in_app_iff. intros [Hin|[<-|[]]]; [apply Hall, Hin|reflexivity].
      * intros Hin. apply Hall, Hin.
    + intros [<-|[]]. reflexivity.
  - intros [<-|[]]. reflexivity.
Qed.

(** Every record of the loop is the record of an item of the dictionary. *)
Lemma signal_records_item timestamp can_id message items r :
  In r (fst (signal_records timestamp can_id message items)) ->
  exists item, In item items /\ signal_record timestamp can_id message item = Ok r.
Proof.
  induction items as [|item rest IH]; cbn [signal_records]; [contradiction|].
  destruct (signal_record timestamp can_id message item) as [r0|e] eqn:Hr;
    [|contradiction].
  destruct (signal_records timestamp can_id message rest) as [rs e']. simpl in *.
  intros [<-|Hin].
  - exists item. split; [left; reflexivity|exact Hr].
  - destruct (IH Hin) as (item' & Hitem & Hrec). exists item'. split; [right|]; assumption.
Qed.

(** A record with a signal name is the record of an item of the decoder's
    result. *)
Lemma decode_signals_item timestamp can_id message data_bytes r :
  In r (decode_signals timestamp can_id message data_bytes) ->
  Decoded.signal_name r <> None ->
  exists d item,
    decode message data_bytes = Ok d
    /\ In item d
    /\ signal_record timestamp can_id message item = Ok r.
Proof.
  unfold decode_signals. destruct (decode message data_bytes) as [d|e].
  - intros Hin Hname.
    assert (Hrs : In r (fst (signal_records timestamp can_id message d))).
    { destruct (signal_records timestamp can_id message d) as [rs [e|]]; simpl;
        [|exact Hin].
      apply in_app_iff in Hin as [Hin|[<-|[]]]; [exact Hin|].
      contradiction Hname. reflexivity. }
    destruct (signal_records_item _ _ _ _ _ Hrs) as (item & Hitem & Hrec).
    exists d, item. repeat split; assumption.
  - intros [<-|[]] Hname. contradiction Hname. reflexivity.
Qed.

(** What a known frame appends: the records of the decoded signals in
    order, up to the one at which the loop stops, and then the record with
    no signal if the loop stopped or the decoder raised. *)
Lemma decode_signals_spec timestamp can_id message data_bytes :
  (forall r, In r (decode_signals timestamp can_id message data_bytes) ->
     Decoded.message_name r = Message.name message
     /\ (Decoded.signal_name r <> None -> Decoded.raw_value r <> None))
  /\ match decode message data_bytes with
     | Raise _ =>
         decode_signals timestamp can_id message data_bytes
         = [message_only timestamp can_id (Message.name message)]
     | Ok d =>
         exists n,
           (n <= List.length d)%nat
           /\ map Decoded.signal_name
                (decode_signals timestamp can_id message data_bytes)
              = (map (fun item => Some (fst item)) (firstn n d)
                 ++ (if (n <? List.length d)%nat then [None] else []))%list
     end.
Proof.
  unfold decode_signals. destruct (decode message data_bytes) as [d|e].
  - destruct (signal_records_spec timestamp can_id message d)
      as (n & Hn & Hnames & Hend & Hall).
    destruct (signal_records timestamp can_id message d) as [rs [e|]];
      simpl in Hnames, Hend, Hall.
    + split.
      * intros r Hin. apply in_app_iff in Hin as [Hin|[<-|[]]].
        -- destruct (Hall r Hin) as (_ & Hm & _ & Hv). split; [exact Hm|]. intros _. exact Hv.
        -- split; [reflexivity|]. intros H. contradiction H. reflexivity.
      * exists n. split; [exact Hn|]. rewrite map_app, Hnames. f_equal.
        assert (Hlt : (n <? List.length d)%nat = true).
        { apply Nat.ltb_lt. destruct (Nat.eq_dec n (List.length d)) as [Heq|Hne]; [|lia].
          apply Hend in Heq. discriminate. }
        rewrite Hlt. reflexivity.
    + split.
      * intros r Hin. destruct (Hall r Hin) as (_ & Hm & _ & Hv).
        split; [exact Hm|]. intros _. exact Hv.
      * exists n. split; [exact Hn|]. rewrite Hnames.
        assert (Hge : (n <? List.length d)%nat = false).
        { apply Nat.ltb_ge. destruct Hend as [Hend _]. rewrite Hend; [lia|reflexivity]. }
        rewrite Hge, app_nil_r. reflexivity.
  - split; [|reflexivity]. intros r [<-|[]]. split; [reflexivity|].
    intros H. contradiction H. reflexivity.
Qed.

(** A frame appends nothing exactly when its message is known and the
    decoder returns an empty dictionary. *)
Lemma decode_signals_nil timestamp can_id message data_bytes :
  decode_signals timestamp can_id message data_bytes = []
  <-> decode message data_bytes = Ok [].
Proof.
  unfold decode_signals. destruct (decode message data_bytes) as [[|item d]|e].
  - simpl. tauto.
  - cbn [signal_records].
    destruct (signal_record timestamp can_id message item) as [r|e].
    + destruct (signal_records timestamp can_id message d) as [rs [e|]];
        split; discriminate.
    + split; discriminate.
  - split; discriminate.
Qed.

(** ** The header *)

Lemma has_column_false names col : ~ In col names -> has_column names col = false.
Proof.
  intros Hnot. unfold has_column.
  destruct (existsb (String.eqb col) names) eqn:E; [|reflexivity].
  apply existsb_exists in E as (x & Hin & Heq).
  apply String.eqb_eq in Heq. subst x. contradiction.
Qed.

(** C9.  When the header of the input lacks one of the columns [timestamp],
    [can_id] and [data], [decode_can_data] raises to its caller before the
    loop over the rows: the list of records is empty and both counters are
    zero when the exception leaves the function. *)
Theorem missing_column_is_fatal (names : list string) (col : string)
  (rows : list Row.t) (db : Database.t) :
  In col required_columns -> ~ In col names ->
  decode_can_data (Some names) rows db
  = Raised (ValueError "CSV must have columns: timestamp,can_id,data") initial
  /\ decoded_data initial = []
  /\ row_count initial = 0%nat
  /\ skipped_rows initial = 0%nat.
Proof.
  intros Hreq Hnot. repeat split. unfold decode_can_data.
  destruct (forallb (has_column names) required_columns) eqn:E; [|reflexivity].
  rewrite forallb_forall in E. specialize (E col Hreq).
  rewrite (has_column_false names col Hnot) in E. discriminate.
Qed.

(** An input without a header raises as well. *)
Lemma no_header_is_fatal rows db :
  decode_can_data None rows db = Raised TypeError initial.
Proof. reflexivity. Qed.

(** With the three columns the function returns, whatever the rows. *)
Lemma complete_header_returns names rows db :
  (forall col, In col required_columns -> In col names) ->
  decode_can_data (Some names) rows db
  = Returned (fold_left (process_row db) rows initial).
Proof.
  intros Hall. unfold decode_can_data.
  replace (forallb (has_column names) required_columns) with true; [reflexivity|].
  symmetry. apply forallb_forall. intros col Hcol. unfold has_column.
  apply existsb_exists. exists col. split; [apply Hall, Hcol|apply String.eqb_refl].
Qed.

(** ** Skipped rows *)

(** C10.  A row whose data field is empty once the quotes, the white space
    and the [0x] are removed is skipped: [normalize_data_field] raises on
    the empty string although its length is even, the row appends nothing
    and both counters advance.  No accepted row has an empty payload, so
    no frame is decoded with zero bytes. *)
Theorem empty_data_is_skipped (row : Row.t) (data : string) :
  Row.data row = Some data -> stripped data = "" ->
  normalize_data_field data
  = Raise (ValueError "Failed to normalize data field: Invalid hex characters: ")
  /\ (exists reason, read_row row = Skip reason)
  /\ (forall db st, process_row db st row = skipped st)
  /\ (forall row' timestamp can_id data_bytes,
        read_row row' = Accept timestamp can_id data_bytes -> data_bytes <> []).
Proof.
  intros Hdata Hempty.
  assert (Hn : normalize_data_field data
               = Raise (ValueError "Failed to normalize data field: Invalid hex characters: ")).
  { rewrite normalize_data_field_stripped, Hempty. reflexivity. }
  assert (Hskip : exists reason, read_row row = Skip reason).
  { destruct (read_row row) as [reason|ts id bs] eqn:Hr; [eauto|].
    apply read_row_accept in Hr as (tf & cf & d & t & _ & _ & Hd & _ & _ & Ht & _).
    rewrite Hdata in Hd. injection Hd as <-. rewrite Hn in Ht. discriminate. }
  split; [exact Hn|]. split; [exact Hskip|]. split.
  - intros db st. destruct Hskip as [reason Hr].
    apply process_row_skip with (reason := reason), Hr.
  - intros row' ts id bs Hr.
    apply read_row_accept in Hr as (tf & cf & d & t & _ & _ & _ & _ & _ & Ht & Hb).
    apply normalize_data_field_ok in Ht as [_ Ht].
    apply fromhex_nonempty with (s := t); [apply normalized_nonempty, Ht|exact Hb].
Qed.

(** ** The timestamp *)

Lemma clean_unchanged field :
  Py.strip field = field ->
  all_chars (fun c => negb (Py.is_quote c)) field = true ->
  clean field = field.
Proof.
  intros Hs Hq. unfold clean, Py.remove_quotes. rewrite Hs.
  apply filter_all_chars, Hq.
Qed.

(** C6, as the code has it.  Every record a row appends carries the
    timestamp field of the row with the surrounding white space stripped and
    the double quotes removed; a field with neither is carried unchanged. *)
Theorem timestamp_is_cleaned (db : Database.t) (st : State) (row : Row.t)
  (field : string) :
  Row.timestamp row = Some field ->
  (exists records,
      decoded_data (process_row db st row) = (decoded_data st ++ records)%list
      /\ forall r, In r records -> Decoded.timestamp r = clean field)
  /\ (Py.strip field = field ->
      all_chars (fun c => negb (Py.is_quote c)) field = true ->
      clean field = field).
Proof.
  intros Hfield. split; [|apply clean_unchanged].
  destruct (read_row row) as [reason|ts id bs] eqn:Hr.
  - exists []. rewrite (process_row_skip db st row reason Hr). simpl.
    rewrite app_nil_r. split; [reflexivity|contradiction].
  - exists (decode_frame db ts id bs).
    split; [apply (process_row_accept db st row ts id bs Hr)|].
    intros r Hin. apply decode_frame_timestamp in Hin. rewrite Hin.
    apply read_row_accept in Hr as (tf & _ & _ & _ & Htf & _ & _ & -> & _).
    rewrite Hfield in Htf. injection Htf as <-. reflexivity.
Qed.

(** ** Unknown frames *)

Lemma upper_hex_digits d :
  Py.upper (HexadecimalString.NilEmpty.string_of_uint d) = upper_digits d.
Proof. induction d; simpl; [reflexivity|rewrite IHd; reflexivity..]. Qed.

Lemma unknown_name_uppercase_hex can_id :
  0 <= can_id -> unknown_name can_id = "Unknown_" ++ uppercase_hex can_id.
Proof.
  intros Hpos. unfold unknown_name, uppercase_hex, Py.hex.
  replace (can_id <? 0) with false by (symmetry; apply Z.ltb_ge, Hpos).
  replace (Z.abs_N can_id) with (Z.to_N can_id) by (destruct can_id; try reflexivity; lia).
  f_equal. cbn [append Py.drop2].
  unfold HexadecimalString.NilZero.string_of_uint.
  destruct (N.to_hex_uint (Z.to_N can_id)) eqn:E;
    [reflexivity|rewrite <- upper_hex_digits; reflexivity..].
Qed.

(** For a negative number the slice [hex(can_id)[2:]] keeps the [x] of the
    prefix. *)
Lemma unknown_name_negative : unknown_name (-5) = "Unknown_X5".
Proof. reflexivity. Qed.

(** C7.  A frame whose id no message of the database has appends exactly
    one record.  Its [message_name] is [Unknown_] followed by the id in
    upper-case hexadecimal; [signal_name], [raw_value], [physical_value] and
    [state] are absent and written as [N/A] ([unit] is absent too, and
    written as the empty string).  Frame ids are unsigned. *)
Theorem unknown_frame_record (db : Database.t) (timestamp : string) (can_id : Z)
  (data_bytes : list byte) :
  0 <= can_id -> find_message db can_id = None ->
  exists r,
    decode_frame db timestamp can_id data_bytes = [r]
    /\ Decoded.message_name r = "Unknown_" ++ uppercase_hex can_id
    /\ Decoded.signal_name r = None
    /\ Decoded.raw_value r = None
    /\ Decoded.physical_value r = None
    /\ Decoded.state r = None
    /\ Decoded.unit r = None
    /\ Output.signal_name (output_row r) = "N/A"
    /\ written (Output.raw_value (output_row r)) = Text "N/A"
    /\ Output.physical_value (output_row r) = Text "N/A"
    /\ Output.state (output_row r) = Text "N/A"
    /\ Output.unit (output_row r) = "".
Proof.
  intros Hpos Hfind. unfold decode_frame. rewrite Hfind.
  eexists. split; [reflexivity|]. simpl.
  rewrite (unknown_name_uppercase_hex can_id Hpos). repeat split.
Qed.

(** ** How many records a frame appends *)

(** C2, as the code has it.  Decoding a frame is a total function: every
    exception of the decoder and of the loop over its result is caught.  An
    unknown id appends one record; a decoder that raises appends one record;
    otherwise the frame appends at most one record per decoded signal and
    one more, and none at all exactly when the decoder returns an empty
    dictionary. *)
Theorem decode_frame_records (db : Database.t) (timestamp : string) (can_id : Z)
  (data_bytes : list byte) :
  (decode_frame db timestamp can_id data_bytes = []
   <-> exists message,
         find_message db can_id = Some message
         /\ decode message data_bytes = Ok [])
  /\ (find_message db can_id = None ->
      List.length (decode_frame db timestamp can_id data_bytes) = 1%nat)
  /\ (forall message e,
        find_message db can_id = Some message ->
        decode message data_bytes = Raise e ->
        decode_frame db timestamp can_id data_bytes
        = [message_only timestamp can_id (Message.name message)])
  /\ (forall message decoded_signals,
        find_message db can_id = Some message ->
        decode message data_bytes = Ok decoded_signals ->
        (List.length (decode_frame db timestamp can_id data_bytes)
         <= S (List.length decoded_signals))%nat).
Proof.
  unfold decode_frame. destruct (find_message db can_id) as [m|].
  - split; [|split; [discriminate|split]].
    + rewrite decode_signals_nil. split.
      * intros H. exists m. split; [reflexivity|exact H].
      * intros (m' & [= <-] & H). exact H.
    + intros m' e [= <-] He. unfold decode_signals. rewrite He. reflexivity.
    + intros m' d [= <-] Hd. unfold decode_signals. rewrite Hd.
      destruct (signal_records_spec timestamp can_id m d) as (n & Hn & Hnames & _).
      apply (f_equal (@List.length _)) in Hnames.
      rewrite !length_map, length_firstn in Hnames.
      destruct (signal_records timestamp can_id m d) as [rs [e|]]; simpl in *;
        [rewrite length_app; simpl|]; lia.
  - split; [|split; [reflexivity|split; discriminate]].
    split; [discriminate|]. intros (m & Hm & _). discriminate.
Qed.

End Properties.

(** ** The decoder of [cantools] *)

Lemma dict_set_fresh (d : SignalDict) name value :
  ~ In name (map fst d) -> dict_set d name value = (d ++ [(name, value)])%list.
Proof.
  induction d as [|[k v] d IH]; simpl; [reflexivity|].
  intros Hnot. destruct (String.eqb k name) eqn:E.
  - apply String.eqb_eq in E. tauto.
  - f_equal. apply IH. tauto.
Qed.


(** The decoder raises only on a signal it keeps. *)
Lemma decode_data_raise data actual expected signals acc e :
  Cantools.decode_data data actual expected signals acc = Raise e ->
  List.filter (Cantools.present actual expected) signals <> [].
Proof.
  revert acc. induction signals as [|s rest IH]; intros acc; simpl; [discriminate|].
  destruct (Cantools.present actual expected s); [discriminate|]. apply IH.
Qed.




(** With unique names, a signal is found by its name. *)
Lemma find_by_name signals s :
  NoDup (map Signal.name signals) -> In s signals ->
  find (fun s' => String.eqb (Signal.name s') (Signal.name s)) signals = Some s.
Proof.
  induction signals as [|s0 l IH]; simpl; [contradiction|].
  intros Hnodup Hin. apply NoDup_cons_iff in Hnodup as [Hs0 Hl].
  destruct (String.eqb (Signal.name s0) (Signal.name s)) eqn:E.
  - destruct Hin as [->|Hin]; [reflexivity|].
    apply String.eqb_eq in E. exfalso. apply Hs0. rewrite E. apply in_map, Hin.
  - destruct Hin as [->|Hin]; [rewrite String.eqb_refl in E; discriminate|].
    apply IH; assumption.
Qed.

Lemma get_signal_by_name_unique message s :
  NoDup (map Signal.name (Message.signals message)) ->
  In s (Message.signals message) ->
  Message.get_signal_by_name message (Signal.name s) = Ok s.
Proof.
  intros Hnodup Hin. unfold Message.get_signal_by_name.
  rewrite (find_by_name _ s Hnodup Hin). reflexivity.
Qed.







(** ** State and physical value *)

Lemma raw_to_scaled_label s raw :
  Cantools.raw_to_scaled s raw
  = match label s raw with
    | Some l => Ok (VNamed raw l)
    | None => Cantools.linear s raw
    end.
Proof.
  unfold Cantools.raw_to_scaled, label. destruct (Signal.choices s); reflexivity.
Qed.

Lemma label_without_choices s raw : has_choices s = false -> label s raw = None.
Proof.
  unfold has_choices, label. destruct (Signal.choices s) as [[|entry table]|];
    [reflexivity|discriminate|reflexivity].
Qed.

(** The body of the loop on a value of the decoder: which of [state] and
    [physical_value] the record has depends on whether the signal has
    choices, not on whether one of them matched. *)
Lemma signal_record_state timestamp can_id message s raw value :
  Message.get_signal_by_name message (Signal.name s) = Ok s ->
  Cantools.raw_to_scaled s raw = Ok value ->
  if has_choices s then
    (exists r,
        signal_record timestamp can_id message (Signal.name s, value) = Ok r
        /\ Decoded.physical_value r = None
        /\ Decoded.state r = Some (str value))
    /\ match label s raw with
       | Some l => str value = Text l
       | None => Cantools.linear s raw = Ok value
       end
  else
    Cantools.linear s raw = Ok value
    /\ match float_of_value value with
       | Ok f =>
           exists r,
             signal_record timestamp can_id message (Signal.name s, value) = Ok r
             /\ Decoded.state r = None
             /\ Decoded.physical_value r = Some f
       | Raise e =>
           signal_record timestamp can_id message (Signal.name s, value) = Raise e
       end.
Proof.
  intros Hget Hvalue. rewrite raw_to_scaled_label in Hvalue.
  unfold signal_record. rewrite Hget.
  destruct (has_choices s) eqn:Hc; simpl.
  - split; [eexists; repeat split|].
    destruct (label s raw) as [l|]; [|exact Hvalue].
    injection Hvalue as <-. reflexivity.
  - rewrite (label_without_choices s raw Hc) in Hvalue. split; [exact Hvalue|].
    destruct (float_of_value value) as [f|e]; [|reflexivity].
    eexists. repeat split.
Qed.

(** Every item of the decoder's result is the scaled raw value of a signal
    of the message. *)
Lemma decode_data_item data actual expected signals acc d name value :
  NoDup (map fst acc ++ map Signal.name signals) ->
  Cantools.decode_data data actual expected signals acc = Ok d ->
  In (name, value) d ->
  In (name, value) acc
  \/ exists s,
       In s signals
       /\ name = Signal.name s
       /\ Cantools.raw_to_scaled s (Cantools.unpack data s) = Ok value.
Proof.
  revert acc. induction signals as [|s rest IH]; intros acc Hnodup; simpl.
  - intros [= <-]. tauto.
  - simpl in Hnodup. destruct (Cantools.present actual expected s).
    + destruct (Cantools.raw_to_scaled s (Cantools.unpack data s)) as [v|e] eqn:Hv;
        [|discriminate].
      assert (Hfresh : ~ In (Signal.name s) (map fst acc)).
      { apply NoDup_remove_2 in Hnodup. rewrite in_app_iff in Hnodup. tauto. }
      rewrite (dict_set_fresh acc _ v Hfresh). intros Hd Hin.
      assert (Hnodup' : NoDup (map fst (acc ++ [(Signal.name s, v)])
                               ++ map Signal.name rest))
        by (rewrite map_app; simpl; rewrite <- app_assoc; exact Hnodup).
      destruct (IH _ Hnodup' Hd Hin) as [Hacc|(s' & Hs' & Hname & Hval)].
      * apply in_app_iff in Hacc as [Hacc|[[= <- <-]|[]]]; [left; exact Hacc|].
        right. exists s. split; [left; reflexivity|split; [reflexivity|exact Hv]].
      * right. exists s'. split; [right; exact Hs'|split; assumption].
    + intros Hd Hin. apply NoDup_remove_1 in Hnodup.
      destruct (IH acc Hnodup Hd Hin) as [Hacc|(s' & Hs' & Hname & Hval)];
        [left; exact Hacc|].
      right. exists s'. split; [right; exact Hs'|split; assumption].
Qed.

(** C3, as the code has it.  In the records of a known frame (a message
    with uniquely named signals), the record of a signal stores the value
    the decoder returns for the signal's raw bits, and which of [state] and
    [physical_value] it has depends on whether the signal has choices, not
    on whether one of them matched.  With a non-empty table of choices the
    record has no [physical_value] and its [state] is the text of the
    decoded value: the label of the raw value when the table has one, and
    else the text of [raw * scale + offset].  Without choices the record has
    no [state] and its [physical_value] is [float(raw * scale + offset)]. *)
Theorem state_or_physical_value (db : Database.t) (timestamp : string)
  (can_id : Z) (data_bytes : list byte) (message : Message.t) (s : Signal.t)
  (r : Decoded.t) :
  find_message db can_id = Some message ->
  NoDup (map Signal.name (Message.signals message)) ->
  In s (Message.signals message) ->
  In r (decode_frame db timestamp can_id data_bytes) ->
  Decoded.signal_name r = Some (Signal.name s) ->
  exists value,
    Cantools.raw_to_scaled s
      (Cantools.unpack (Cantools.pad data_bytes (Message.length message)) s)
    = Ok value
    /\ Decoded.raw_value r = Some value
    /\ if has_choices s then
         Decoded.physical_value r = None
         /\ Decoded.state r = Some (str value)
         /\ match label s (Cantools.unpack
                             (Cantools.pad data_bytes (Message.length message)) s) with
            | Some l => str value = Text l
            | None =>
                Cantools.linear s
                  (Cantools.unpack (Cantools.pad data_bytes (Message.length message)) s)
                = Ok value
            end
       else
         Decoded.state r = None
         /\ Cantools.linear s
              (Cantools.unpack (Cantools.pad data_bytes (Message.length message)) s)
            = Ok value
         /\ exists f, float_of_value value = Ok f /\ Decoded.physical_value r = Some f.
Proof.
  intros Hfind Hnodup Hs Hr Hname. unfold decode_frame in Hr. rewrite Hfind in Hr.
  assert (Hsome : Decoded.signal_name r <> None) by (rewrite Hname; discriminate).
  destruct (decode_signals_item timestamp can_id message data_bytes r Hr Hsome)
    as (d & [name value] & Hd & Hitem & Hrec).
  pose proof (signal_record_fields _ _ _ _ _ _ Hrec) as (_ & _ & Hn & Hv).
  rewrite Hname in Hn. injection Hn as <-.
  change (decode message data_bytes)
    with (Cantools.message_decode message data_bytes) in Hd.
  destruct (decode_data_item _ _ _ (Message.signals message) [] _ _ _ Hnodup Hd Hitem)
    as [[]|(s' & Hs' & Heq & Hval)].
  assert (s' = s) as ->.
  { pose proof (find_by_name _ s Hnodup Hs) as H1.
    pose proof (find_by_name _ s' Hnodup Hs') as H2.
    rewrite <- Heq in H2. rewrite H1 in H2. injection H2 as <-. reflexivity. }
  exists value. split; [exact Hval|]. split; [exact Hv|].
  pose proof (signal_record_state timestamp can_id message s _ value
                (get_signal_by_name_unique message s Hnodup Hs) Hval) as Hstate.
  destruct (has_choices s).
  - destruct Hstate as [(r' & Hr' & Hp & Hst) Hlabel].
    rewrite Hrec in Hr'. injection Hr' as <-. repeat split; assumption.
  - destruct Hstate as [Hlin Hf]. destruct (float_of_value value) as [f|e].
    + destruct Hf as (r' & Hr' & Hst & Hp). rewrite Hrec in Hr'. injection Hr' as <-.
      repeat split; try assumption. exists f. split; [reflexivity|exact Hp].
    + rewrite Hrec in Hf. discriminate.
Qed.

(** ** The raw value *)

(** Every record of a signal stores the decoder's value, scaled or named,
    as its [raw_value]. *)
Lemma raw_value_is_decoded_value timestamp can_id message name value r :
  signal_record timestamp can_id message (name, value) = Ok r ->
  Decoded.raw_value r = Some value
  /\ written (Output.raw_value (output_row r)) = str value.
Proof.
  intros H. apply signal_record_fields in H as (_ & _ & _ & Hv).
  unfold output_row. simpl. rewrite Hv. split; reflexivity.
Qed.

(** C4 on the frame [0x123] with payload [E8 03 02 00 00 00 00 00].  The
    bits of [RPM] are 1000 and those of [Status] are 2, but the records
    carry 250.0 and the named value [FAULT] as [raw_value], and the second
    is written as [FAULT]. *)
Theorem raw_value_of_engine_data :
  Cantools.unpack Example.payload Example.RPM = 1000
  /\ Cantools.unpack Example.payload Example.Status = 2
  /\ map (fun r => (Decoded.signal_name r, Decoded.raw_value r,
                    written (Output.raw_value (output_row r))))
       (decode_frame Example.db "0.0" 291 Example.payload)
     = [(Some "RPM", Some (VFloat 250), FloatRepr 250);
        (Some "Status", Some (VNamed 2 "FAULT"), Text "FAULT")].
Proof. vm_compute. repeat split. Qed.

(** ** Idempotence of the normalization *)

(** C8.  A string [normalize_data_field] returns is a normalized hexadecimal
    string: it has an even length, holds hexadecimal digits only and nothing
    the normalization would remove.  Normalizing it again returns it
    unchanged. *)
Theorem normalize_data_field_idempotent (data t : string) :
  normalize_data_field data = Ok t ->
  normalize_data_field t = Ok t
  /\ Nat.even (String.length t) = true
  /\ all_chars Py.is_hex_digit t = true
  /\ stripped t = t.
Proof.
  intros H. apply normalize_data_field_ok in H as [_ H].
  split; [apply normalize_data_field_normalized, H|].
  split; [|split; [|apply stripped_normalized, H]];
    unfold normalized in H; rewrite !andb_true_iff in H; tauto.
Qed.

(** Every non-empty string of an even number of hexadecimal digits is its
    own normalization; the empty string is rejected. *)
Lemma normalize_data_field_fixpoints t :
  normalize_data_field t = Ok t <-> normalized t = true.
Proof.
  split; [|apply normalize_data_field_normalized].
  intros H. apply normalize_data_field_ok in H. tauto.
Qed.

(** ** The frame identifier *)

Lemma digit_not_underscore base c :
  Py.is_digit base c = true -> Py.is_underscore c = false.
Proof. char_cases c. Qed.

Lemma hex_digit_is_digit c : Py.is_hex_digit c = true -> Py.is_digit 16 c = true.
Proof. char_cases c. Qed.

Lemma decimal_digit_is_digit c : is_decimal_digit c = true -> Py.is_digit 10 c = true.
Proof. char_cases c. Qed.

Lemma decimal_digit_plain c :
  is_decimal_digit c = true ->
  Py.int_space c = false /\ (Py.code c =? 43) = false
  /\ (Py.code c =? 45) = false /\ (Py.code c =? 120) = false.
Proof. char_cases c. Qed.

(** A string of digits is read to its end. *)
Lemma scan_digits_all base digits acc n :
  all_chars (Py.is_digit base) digits = true ->
  Py.scan_digits base digits false acc n
  = Some (numeral_from base acc digits, (n + String.length digits)%nat, "").
Proof.
  revert acc n. induction digits as [|c digits IH]; intros acc n; simpl.
  - intros _. rewrite Nat.add_0_r. reflexivity.
  - rewrite andb_true_iff. intros [Hc Hrest].
    rewrite (digit_not_underscore base c Hc).
    unfold Py.is_digit in Hc. destruct (Py.digit_value c) as [d|]; [|discriminate].
    rewrite Hc, IH by exact Hrest. rewrite Nat.add_succ_r. reflexivity.
Qed.

(** A [0x] followed by hexadecimal digits is read in base 16. *)
Lemma parse_can_id_hex digits :
  Py.is_empty digits = false -> all_chars Py.is_hex_digit digits = true ->
  parse_can_id ("0x" ++ digits) = Some (numeral 16 digits).
Proof.
  intros Hne Hhex.
  assert (Hdig : all_chars (Py.is_digit 16) digits = true)
    by (apply all_chars_impl with (2 := Hhex), hex_digit_is_digit).
  destruct digits as [|c digits]; [discriminate|].
  pose proof Hdig as Hc. simpl in Hc. apply andb_true_iff in Hc as [Hc _].
  unfold parse_can_id.
  change (Py.startswith_0x ("0x" ++ String c digits)) with true. cbv iota.
  unfold Py.int.
  change (Py.skip_int_space ("0x" ++ String c digits))
    with ("0x" ++ String c digits).
  change (Py.skip_sign ("0x" ++ String c digits))
    with (false, "0x" ++ String c digits).
  cbv iota beta.
  change (Py.skip_prefix 16 ("0x" ++ String c digits))
    with (if Py.is_underscore c then digits else String c digits).
  rewrite (digit_not_underscore 16 c Hc).
  unfold Py.starts_with_underscore. rewrite (digit_not_underscore 16 c Hc).
  rewrite (scan_digits_all 16 _ 0 0 Hdig). reflexivity.
Qed.

(** Decimal digits are read in base 10, up to the digit limit. *)
Lemma parse_can_id_decimal digits :
  Py.is_empty digits = false -> all_chars is_decimal_digit digits = true ->
  (String.length digits <= Py.max_str_digits)%nat ->
  parse_can_id digits = Some (numeral 10 digits).
Proof.
  intros Hne Hdec Hlimit.
  assert (Hdig : all_chars (Py.is_digit 10) digits = true)
    by (apply all_chars_impl with (2 := Hdec), decimal_digit_is_digit).
  destruct digits as [|c digits]; [discriminate|].
  pose proof Hdig as Hc. simpl in Hc. apply andb_true_iff in Hc as [Hc _].
  simpl in Hdec. apply andb_true_iff in Hdec as [Hcd Hrest].
  destruct (decimal_digit_plain c Hcd) as (Hsp & Hplus & Hminus & _).
  assert (Hstart : Py.startswith_0x (String c digits) = false).
  { destruct digits as [|b digits]; [reflexivity|]. simpl in Hrest.
    apply andb_true_iff in Hrest as [Hb _].
    destruct (decimal_digit_plain b Hb) as (_ & _ & _ & Hx).
    simpl. rewrite Hx. apply andb_false_r. }
  unfold parse_can_id. rewrite Hstart. unfold Py.int.
  cbn [Py.skip_int_space Py.skip_sign]. rewrite Hsp. cbn [Py.skip_sign].
  rewrite Hplus, Hminus.
  change (Py.skip_prefix 10 (String c digits)) with (String c digits).
  unfold Py.starts_with_underscore. rewrite (digit_not_underscore 10 c Hc).
  rewrite (scan_digits_all 10 _ 0 0 Hdig).
  replace (Py.exceeds_limit 10 (0 + String.length (String c digits))) with false.
  - reflexivity.
  - symmetry. unfold Py.exceeds_limit. apply andb_false_iff. right.
    apply Nat.ltb_ge. exact Hlimit.
Qed.

(** Beyond the digit limit a decimal numeral is refused. *)
Lemma parse_can_id_long_decimal digits :
  all_chars is_decimal_digit digits = true ->
  (Py.max_str_digits < String.length digits)%nat ->
  parse_can_id digits = None.
Proof.
  intros Hdec Hlong.
  assert (Hdig : all_chars (Py.is_digit 10) digits = true)
    by (apply all_chars_impl with (2 := Hdec), decimal_digit_is_digit).
  destruct digits as [|c digits]; [simpl in Hlong; unfold Py.max_str_digits in Hlong; lia|].
  pose proof Hdig as Hc. simpl in Hc. apply andb_true_iff in Hc as [Hc _].
  simpl in Hdec. apply andb_true_iff in Hdec as [Hcd Hrest].
  destruct (decimal_digit_plain c Hcd) as (Hsp & Hplus & Hminus & _).
  assert (Hstart : Py.startswith_0x (String c digits) = false).
  { destruct digits as [|b digits]; [reflexivity|]. simpl in Hrest.
    apply andb_true_iff in Hrest as [Hb _].
    destruct (decimal_digit_plain b Hb) as (_ & _ & _ & Hx).
    simpl. rewrite Hx. apply andb_false_r. }
  unfold parse_can_id. rewrite Hstart. unfold Py.int.
  cbn [Py.skip_int_space Py.skip_sign]. rewrite Hsp. cbn [Py.skip_sign].
  rewrite Hplus, Hminus.
  change (Py.skip_prefix 10 (String c digits)) with (String c digits).
  unfold Py.starts_with_underscore. rewrite (digit_not_underscore 10 c Hc).
  rewrite (scan_digits_all 10 _ 0 0 Hdig).
  replace (Py.exceeds_limit 10 (0 + String.length (String c digits))) with true.
  - rewrite orb_true_r. reflexivity.
  - symmetry. unfold Py.exceeds_limit. apply andb_true_iff. split; [reflexivity|].
    apply Nat.ltb_lt. exact Hlong.
Qed.

(** The data field [AB C] keeps three digits: the row is skipped. *)
Lemma odd_data_is_skipped :
  exists e, read_row (Example.row "0.0" "0x123" "AB C") = Skip (InvalidData "AB C" e).
Proof. eexists. reflexivity. Qed.

(** A row whose identifier does not parse is skipped. *)
Lemma read_row_invalid_can_id row can_id_field :
  Row.can_id row = Some can_id_field ->
  parse_can_id (clean can_id_field) = None ->
  exists reason, read_row row = Skip reason.
Proof.
  intros Hid Hparse. destruct (read_row row) as [reason|ts id bs] eqn:Hr; [eauto|].
  apply read_row_accept in Hr as (tf & cf & d & t & _ & Hcf & _ & _ & Hp & _).
  rewrite Hid in Hcf. injection Hcf as <-. rewrite Hparse in Hp. discriminate.
Qed.

(** A skipped row advances the counters and the rows after it are read. *)
Lemma decode_can_data_skip {codec : Codec} db names rows_before row rows_after reason :
  (forall col, In col required_columns -> In col names) ->
  read_row row = Skip reason ->
  decode_can_data (Some names) (rows_before ++ row :: rows_after) db
  = Returned (fold_left (process_row db) rows_after
                (skipped (fold_left (process_row db) rows_before initial))).
Proof.
  intros Hnames Hskip. rewrite (complete_header_returns names _ db Hnames).
  rewrite fold_left_app. simpl.
  rewrite (process_row_skip db _ row reason Hskip). reflexivity.
Qed.

(** How an identifier is read.  It is read in base 16 exactly when it
    begins with the lower-case prefix [0x], and in base 10 otherwise.  A row
    whose identifier is not a numeral is skipped: the skip counter advances,
    no record is appended and the rows after it are read. *)
Lemma can_id_is_hex_after_lower_0x :
  (forall s, parse_can_id s
             = if Py.startswith_0x s then Py.int 16 s else Py.int 10 s)
  /\ (forall digits,
        Py.is_empty digits = false -> all_chars Py.is_hex_digit digits = true ->
        parse_can_id ("0x" ++ digits) = Some (numeral 16 digits))
  /\ (forall digits,
        Py.is_empty digits = false -> all_chars is_decimal_digit digits = true ->
        (String.length digits <= Py.max_str_digits)%nat ->
        parse_can_id digits = Some (numeral 10 digits))
  /\ (forall (codec : Codec) db names rows_before rows_after row can_id_field,
        (forall col, In col required_columns -> In col names) ->
        Row.can_id row = Some can_id_field ->
        parse_can_id (clean can_id_field) = None ->
        decode_can_data (Some names) (rows_before ++ row :: rows_after) db
        = Returned (fold_left (process_row db) rows_after
                      (skipped (fold_left (process_row db) rows_before initial)))).
Proof.
  split; [reflexivity|]. split; [exact parse_can_id_hex|].
  split; [exact parse_can_id_decimal|].
  intros codec db names rows_before rows_after row cf Hnames Hid Hparse.
  destruct (read_row_invalid_can_id row cf Hid Hparse) as [reason Hskip].
  apply decode_can_data_skip with (reason := reason); assumption.
Qed.

(** * The properties on the example database *)

Lemma engine_data_names :
  NoDup (map Signal.name (Message.signals Example.EngineData)).
Proof. repeat constructor; simpl; intuition discriminate. Defined.



(** Against C2: a known frame with one byte, or with none, appends no
    record. *)
Lemma short_payload_gives_no_record :
  find_message Example.db 291 = Some Example.EngineData
  /\ decode_frame Example.db "0.0" 291 [xe8] = []
  /\ decode_frame Example.db "0.0" 291 [] = [].
Proof. vm_compute. repeat split. Qed.

(** [Status] with the raw value 3, which its choices do not name. *)
Lemma state_or_physical_value_witness :
  find_message Example.db 291 = Some Example.EngineData
  /\ NoDup (map Signal.name (Message.signals Example.EngineData))
  /\ In Example.Status (Message.signals Example.EngineData)
  /\ In Example.status_3 (decode_frame Example.db "0.0" 291 [xe8; x03; x03])
  /\ Decoded.signal_name Example.status_3 = Some (Signal.name Example.Status)
  /\ exists value,
       Cantools.raw_to_scaled Example.Status 3 = Ok value
       /\ Decoded.raw_value Example.status_3 = Some value
       /\ Decoded.physical_value Example.status_3 = None
       /\ Decoded.state Example.status_3 = Some (str value)
       /\ Cantools.linear Example.Status 3 = Ok value.
Proof.
  assert (Hs : In Example.Status (Message.signals Example.EngineData))
    by (right; left; reflexivity).
  assert (Hr : In Example.status_3 (decode_frame Example.db "0.0" 291 [xe8; x03; x03]))
    by (right; left; reflexivity).
  split; [reflexivity|]. split; [exact engine_data_names|].
  split; [exact Hs|]. split; [exact Hr|]. split; [reflexivity|].
  exact (state_or_physical_value Example.db "0.0" 291 [xe8; x03; x03]
           Example.EngineData Example.Status Example.status_3 eq_refl
           engine_data_names Hs Hr eq_refl).
Defined.

(** Against C3: in the payload [E8 03 03] the raw value of [Status] is 3
    and its choices name 2 only; the record has the state [3] and no
    physical value. *)
Lemma unmatched_choice_has_state :
  Cantools.unpack (Cantools.pad [xe8; x03; x03] 8) Example.Status = 3
  /\ label Example.Status 3 = None
  /\ map (fun r => (Decoded.signal_name r, Decoded.physical_value r, Decoded.state r))
       (decode_frame Example.db "0.0" 291 [xe8; x03; x03])
     = [(Some "RPM", Some 250%float, None);
        (Some "Status", None, Some (Text "3"))].
Proof. vm_compute. repeat split. Qed.

(** C5 on the identifiers [0x1A2] and [0X1A2].  The first is read in
    base 16 as 418.  The second is a hexadecimal numeral too, and
    [int(s, 16)] reads it as 418, but the script tests the lower-case prefix
    only: it reads [0X1A2] in base 10, which fails, and skips the row. *)
Theorem upper_case_prefix_is_rejected :
  parse_can_id "0x1A2" = Some 418
  /\ Py.int 16 "0X1A2" = Some 418
  /\ parse_can_id "0X1A2" = None
  /\ decode_can_data (Some Example.header) [Example.row "0.0" "0X1A2" "00"] Example.db
     = Returned {| decoded_data := []; row_count := 1; skipped_rows := 1 |}
  /\ map Decoded.message_name
       (row_records Example.db (Example.row "0.0" "0x1A2" "00"))
     = ["Unknown_1A2"].
Proof. repeat split. Qed.

(** A timestamp with a leading space. *)
Lemma timestamp_is_cleaned_witness :
  Row.timestamp (Example.row " 1.5" "0x200" "00") = Some " 1.5"
  /\ exists records,
       decoded_data (process_row Example.db initial (Example.row " 1.5" "0x200" "00"))
       = (decoded_data initial ++ records)%list
       /\ forall r, In r records -> Decoded.timestamp r = "1.5".
Proof.
  split; [reflexivity|].
  exact (proj1 (timestamp_is_cleaned Example.db initial
                  (Example.row " 1.5" "0x200" "00") " 1.5" eq_refl)).
Defined.

(** Against C6: the record of that row carries the timestamp without the
    space. *)
Lemma timestamp_is_stripped :
  map Decoded.timestamp
    (decoded_data (process_row Example.db initial (Example.row " 1.5" "0x200" "00")))
  = ["1.5"]
  /\ "1.5" <> " 1.5".
Proof. split; [reflexivity|discriminate]. Qed.

(** The frame [0x200], which the example database does not have. *)
Lemma unknown_frame_record_witness :
  0 <= 512
  /\ find_message Example.db 512 = None
  /\ exists r,
       decode_frame Example.db "0.0" 512 [x00] = [r]
       /\ Decoded.message_name r = "Unknown_200".
Proof.
  split; [lia|]. split; [reflexivity|].
  destruct (unknown_frame_record Example.db "0.0" 512 [x00] ltac:(lia) eq_refl)
    as (r & Hr & Hname & _).
  exists r. split; [exact Hr|exact Hname].
Defined.

(** Two bytes written with their prefixes. *)
Lemma normalize_data_field_idempotent_witness :
  normalize_data_field "0xE8 0x03" = Ok "E803"
  /\ normalize_data_field "E803" = Ok "E803"
  /\ Nat.even (String.length "E803") = true
  /\ all_chars Py.is_hex_digit "E803" = true
  /\ stripped "E803" = "E803".
Proof.
  split; [reflexivity|].
  exact (normalize_data_field_idempotent "0xE8 0x03" "E803" eq_refl).
Defined.

(** A header without [can_id]. *)
Lemma missing_column_is_fatal_witness :
  In "can_id" required_columns
  /\ ~ In "can_id" ["timestamp"; "data"]
  /\ decode_can_data (Some ["timestamp"; "data"])
       [Example.row "0.0" "0x123" "E803"] Example.db
     = Raised (ValueError "CSV must have columns: timestamp,can_id,data") initial.
Proof.
  assert (Hin : In "can_id" required_columns) by (simpl; auto).
  assert (Hnot : ~ In "can_id" ["timestamp"; "data"]) by (simpl; intuition discriminate).
  split; [exact Hin|]. split; [exact Hnot|].
  exact (proj1 (missing_column_is_fatal ["timestamp"; "data"] "can_id"
                  [Example.row "0.0" "0x123" "E803"] Example.db Hin Hnot)).
Defined.

(** A data field of white space and prefixes only. *)
Lemma empty_data_is_skipped_witness :
  Row.data (Example.row "0.0" "0x123" " 0x 0X ") = Some " 0x 0X "
  /\ stripped " 0x 0X " = ""
  /\ normalize_data_field " 0x 0X "
     = Raise (ValueError "Failed to normalize data field: Invalid hex characters: ")
  /\ exists reason, read_row (Example.row "0.0" "0x123" " 0x 0X ") = Skip reason.
Proof.
  split; [reflexivity|]. split; [reflexivity|].
  destruct (empty_data_is_skipped (Example.row "0.0" "0x123" " 0x 0X ") " 0x 0X "
              eq_refl eq_refl) as (Hn & Hskip & _).
  split; [exact Hn|exact Hskip].
Defined.

(** * Further properties of the script *)

(** ** The loop over the rows *)

Section Rows.

Context {codec : Codec}.

Lemma process_row_records db st row :
  decoded_data (process_row db st row) = (decoded_data st ++ row_records db row)%list
  /\ row_count (process_row db st row) = S (row_count st)
  /\ skipped_rows (process_row db st row)
     = (skipped_rows st + (if is_skipped row then 1 else 0))%nat.
Proof.
  unfold process_row, row_records, is_skipped.
  destruct (read_row row); simpl; repeat split;
    try (rewrite app_nil_r; reflexivity); lia.
Qed.

(** The state after the rows, from any state before them. *)
Lemma fold_process_row db rows st :
  decoded_data (fold_left (process_row db) rows st)
  = (decoded_data st ++ flat_map (row_records db) rows)%list
  /\ row_count (fold_left (process_row db) rows st)
     = (row_count st + List.length rows)%nat
  /\ skipped_rows (fold_left (process_row db) rows st)
     = (skipped_rows st + List.length (List.filter is_skipped rows))%nat.
Proof.
  revert st. induction rows as [|row rows IH]; intros st; simpl.
  - rewrite app_nil_r. repeat split; lia.
  - destruct (IH (process_row db st row)) as (Hd & Hc & Hs).
    destruct (process_row_records db st row) as (Hd1 & Hc1 & Hs1).
    rewrite Hd, Hc, Hs, Hd1, Hc1, Hs1, <- app_assoc.
    repeat split; [lia|]. destruct (is_skipped row); simpl; lia.
Qed.

Lemma returned_is_fold fieldnames rows db st :
  decode_can_data fieldnames rows db = Returned st ->
  st = fold_left (process_row db) rows initial.
Proof.
  unfold decode_can_data. destruct fieldnames as [names|]; [|discriminate].
  destruct (negb _); [discriminate|]. intros [= <-]. reflexivity.
Qed.

(** X1.  When [decode_can_data] returns, [row_count] is the number of rows
    read, [skipped_rows] is the number of rows that gave no frame, and the
    rows that were not skipped make up the difference. *)
Theorem counters_count_the_rows (fieldnames : option (list string))
  (rows : list Row.t) (db : Database.t) (st : State) :
  decode_can_data fieldnames rows db = Returned st ->
  row_count st = List.length rows
  /\ skipped_rows st = List.length (List.filter is_skipped rows)
  /\ (row_count st
      = skipped_rows st
        + List.length (List.filter (fun row => negb (is_skipped row)) rows))%nat.
Proof.
  intros H. apply returned_is_fold in H. subst st.
  destruct (fold_process_row db rows initial) as (_ & Hc & Hs).
  rewrite Hc, Hs. simpl. split; [reflexivity|]. split; [reflexivity|].
  clear. induction rows as [|row rows IH]; simpl; [reflexivity|].
  destruct (is_skipped row); simpl; lia.
Qed.

(** X2.  When [decode_can_data] returns, its list of records is the
    concatenation, in the order of the rows, of what each row appends on its
    own: a row's records do not depend on the rows around it. *)
Theorem records_follow_the_rows (fieldnames : option (list string))
  (rows : list Row.t) (db : Database.t) (st : State) :
  decode_can_data fieldnames rows db = Returned st ->
  decoded_data st = flat_map (row_records db) rows.
Proof.
  intros H. apply returned_is_fold in H. subst st.
  destruct (fold_process_row db rows initial) as (Hd & _). exact Hd.
Qed.

Lemma complete_returns fieldnames rows db :
  complete fieldnames ->
  decode_can_data fieldnames rows db
  = Returned (fold_left (process_row db) rows initial).
Proof.
  intros (names & -> & Hall). apply complete_header_returns, Hall.
Qed.

Lemma incomplete_or_complete fieldnames :
  complete fieldnames \/ ~ complete fieldnames.
Proof.
  destruct fieldnames as [names|]; [|right; intros (n & H & _); discriminate].
  destruct (forallb (has_column names) required_columns) eqn:E.
  - left. exists names. split; [reflexivity|]. intros col Hcol.
    rewrite forallb_forall in E. specialize (E col Hcol).
    unfold has_column in E. apply existsb_exists in E as (x & Hin & Heq).
    apply String.eqb_eq in Heq. subst x. exact Hin.
  - right. intros (n & [= <-] & Hall).
    assert (forallb (has_column names) required_columns = true); [|congruence].
    apply forallb_forall. intros col Hcol. unfold has_column.
    apply existsb_exists. exists col. split; [apply Hall, Hcol|apply String.eqb_refl].
Qed.

Lemma incomplete_raises fieldnames rows db :
  ~ complete fieldnames ->
  exists e, decode_can_data fieldnames rows db = Raised e initial.
Proof.
  intros Hnot. unfold decode_can_data. destruct fieldnames as [names|]; [|eauto].
  destruct (forallb (has_column names) required_columns) eqn:E; simpl; [|eauto].
  exfalso. apply Hnot. exists names. split; [reflexivity|].
  intros col Hcol. rewrite forallb_forall in E. specialize (E col Hcol).
  unfold has_column in E. apply existsb_exists in E as (x & Hin & Heq).
  apply String.eqb_eq in Heq. subst x. exact Hin.
Qed.

(** X3.  [decode_can_data] returns exactly when the reader raises nowhere
    and its header has the three columns, in any order and among any others:
    what the fields of a row hold never makes it raise.  When the header is
    refused no row has been read.  When the reader raises after some rows,
    these rows have been read and counted and their records appended before
    the exception leaves the function. *)
Theorem only_header_and_reader_are_fatal (reader : Reader.t) (db : Database.t) :
  ((exists st, decode_can_data_from reader db = Ends st)
   <-> exists fieldnames,
         Reader.fieldnames reader = inr fieldnames
         /\ complete fieldnames
         /\ Reader.stops reader = None)
  /\ (forall e st, decode_can_data_from reader db = HeaderRaises e st ->
        st = initial
        /\ exists fieldnames,
             Reader.fieldnames reader = inr fieldnames /\ ~ complete fieldnames)
  /\ (forall err st, decode_can_data_from reader db = ReaderRaises err st ->
        (Reader.fieldnames reader = inl err /\ st = initial)
        \/ (Reader.stops reader = Some err
            /\ row_count st = List.length (Reader.rows reader)
            /\ skipped_rows st
               = List.length (List.filter is_skipped (Reader.rows reader))
            /\ decoded_data st = flat_map (row_records db) (Reader.rows reader))).
Proof.
  unfold decode_can_data_from.
  destruct (Reader.fieldnames reader) as [err0|fieldnames].
  - split; [split|split].
    + intros [st H]. discriminate.
    + intros (fn & H & _). discriminate.
    + intros e st H. discriminate.
    + intros err st [= <- <-]. left. split; reflexivity.
  - destruct (incomplete_or_complete fieldnames) as [Hc|Hc].
    + rewrite (complete_returns fieldnames (Reader.rows reader) db Hc).
      destruct (fold_process_row db (Reader.rows reader) initial) as (Hd & Hn & Hs).
      destruct (Reader.stops reader) as [err|].
      * split; [split|split].
        -- intros [st H]. discriminate.
        -- intros (fn & _ & _ & H). discriminate.
        -- intros e st H. discriminate.
        -- intros err' st [= <- <-]. right. repeat split; assumption.
      * split; [split|split].
        -- intros _. exists fieldnames. repeat split. exact Hc.
        -- intros _. eauto.
        -- intros e st H. discriminate.
        -- intros err st H. discriminate.
    + destruct (incomplete_raises fieldnames (Reader.rows reader) db Hc) as [e He].
      rewrite He. split; [split|split].
      * intros [st H]. discriminate.
      * intros (fn & [= <-] & Hc' & _). contradiction.
      * intros e' st [= <- <-]. split; [reflexivity|]. exists fieldnames.
        split; [reflexivity|exact Hc].
      * intros err st H. discriminate.
Qed.

(** A record of the result comes from the frame of an accepted row. *)
Lemma record_origin fieldnames rows db st r :
  decode_can_data fieldnames rows db = Returned st ->
  In r (decoded_data st) ->
  exists row timestamp can_id data_bytes,
    In row rows
    /\ read_row row = Accept timestamp can_id data_bytes
    /\ In r (decode_frame db timestamp can_id data_bytes).
Proof.
  intros H Hin. apply returned_is_fold in H. subst st.
  destruct (fold_process_row db rows initial) as (Hd & _).
  rewrite Hd in Hin. simpl in Hin. apply in_flat_map in Hin as (row & Hrow & Hin).
  unfold row_records in Hin.
  destruct (read_row row) as [reason|ts id bs] eqn:Hr; [contradiction|].
  exists row, ts, id, bs. repeat split; assumption.
Qed.

(** ** The shape of a record *)

Lemma signal_record_shape timestamp can_id message item r :
  signal_record timestamp can_id message item = Ok r ->
  Decoded.can_id r = Py.hex can_id /\ of_signal r.
Proof.
  unfold signal_record, of_signal. destruct item as [name value].
  destruct (Message.get_signal_by_name message name) as [s|]; [|discriminate].
  destruct (has_choices s); simpl.
  - intros [= <-]. simpl. split; [reflexivity|].
    repeat split; try discriminate. right. split; [discriminate|reflexivity].
  - destruct (float_of_value value) as [f|]; [|discriminate].
    intros [= <-]. simpl. split; [reflexivity|].
    repeat split; try discriminate. left. split; [reflexivity|discriminate].
Qed.

Lemma decode_signals_shape timestamp can_id message data_bytes r :
  In r (decode_signals timestamp can_id message data_bytes) ->
  Decoded.can_id r = Py.hex can_id
  /\ Decoded.message_name r = Message.name message
  /\ (no_signal r \/ of_signal r).
Proof.
  intros Hin.
  destruct (decode_signals_spec timestamp can_id message data_bytes) as [Hall _].
  destruct (Hall r Hin) as [Hname _].
  destruct (Decoded.signal_name r) as [name|] eqn:Hs.
  - assert (Hsome : Decoded.signal_name r <> None) by (rewrite Hs; discriminate).
    destruct (decode_signals_item _ _ _ _ r Hin Hsome) as (d & item & _ & _ & Hrec).
    apply signal_record_shape in Hrec as [Hid Hshape].
    repeat split; [exact Hid|exact Hname|right; exact Hshape].
  - unfold decode_signals in Hin.
    assert (Hfail : r = message_only timestamp can_id (Message.name message)).
    { destruct (decode message data_bytes) as [d|e]; [|destruct Hin as [<-|[]]; reflexivity].
      destruct (signal_records_spec timestamp can_id message d) as (_ & _ & _ & _ & Hrs).
      destruct (signal_records timestamp can_id message d) as [rs [e|]]; simpl in Hrs.
      - apply in_app_iff in Hin as [Hin|[<-|[]]]; [|reflexivity].
        destruct (Hrs r Hin) as (_ & _ & Hn & _). contradiction.
      - destruct (Hrs r Hin) as (_ & _ & Hn & _). contradiction. }
    subst r. repeat split. left. repeat split.
Qed.

Lemma decode_frame_shape db timestamp can_id data_bytes r :
  In r (decode_frame db timestamp can_id data_bytes) ->
  Decoded.can_id r = Py.hex can_id /\ (no_signal r \/ of_signal r).
Proof.
  unfold decode_frame. destruct (find_message db can_id) as [m|].
  - intros Hin. apply decode_signals_shape in Hin. tauto.
  - intros [<-|[]]. split; [reflexivity|]. left. repeat split.
Qed.

(** X4.  Every record of the result is of one of two shapes.  Either it
    has no signal at all: [signal_name], [raw_value], [physical_value],
    [state] and [unit] are all absent.  Or it is the record of a signal:
    [signal_name], [raw_value] and [unit] are present, and exactly one of
    [state] and [physical_value] is. *)
Theorem records_have_two_shapes (fieldnames : option (list string))
  (rows : list Row.t) (db : Database.t) (st : State) (r : Decoded.t) :
  decode_can_data fieldnames rows db = Returned st ->
  In r (decoded_data st) ->
  no_signal r \/ of_signal r.
Proof.
  intros H Hin.
  destruct (record_origin _ _ _ _ _ H Hin) as (row & ts & id & bs & _ & _ & Hr).
  apply decode_frame_shape in Hr. tauto.
Qed.

End Rows.

(** ** The identifier written in a record *)

Lemma string_of_uint_hex_digits d :
  all_chars Py.is_hex_digit (HexadecimalString.NilEmpty.string_of_uint d) = true.
Proof.
  induction d; [reflexivity|
    cbn [HexadecimalString.NilEmpty.string_of_uint all_chars]; rewrite IHd; reflexivity..].
Qed.

(** Reading the digits of [d] after the positive number [acc]. *)
Lemma numeral_from_of_hex_uint_acc d acc :
  numeral_from 16 (Z.pos acc) (HexadecimalString.NilEmpty.string_of_uint d)
  = Z.pos (Pos.of_hex_uint_acc d acc).
Proof.
  revert acc.
  induction d; intros acc; [reflexivity|
    cbn [HexadecimalString.NilEmpty.string_of_uint numeral_from Pos.of_hex_uint_acc];
    match goal with
    | |- context [Py.digit_value ?c] =>
        let v := eval vm_compute in (Py.digit_value c) in
        change (Py.digit_value c) with v
    end;
    cbv iota beta; rewrite <- IHd; f_equal; lia..].
Qed.

Lemma numeral_of_hex_uint d :
  numeral 16 (HexadecimalString.NilEmpty.string_of_uint d)
  = Z.of_N (N.of_hex_uint d).
Proof.
  unfold numeral, N.of_hex_uint.
  induction d; [reflexivity|
    cbn [HexadecimalString.NilEmpty.string_of_uint numeral_from Pos.of_hex_uint];
    match goal with
    | |- context [Py.digit_value ?c] =>
        let v := eval vm_compute in (Py.digit_value c) in
        change (Py.digit_value c) with v
    end;
    cbv iota beta;
    first [exact IHd | apply (numeral_from_of_hex_uint_acc d)]..].
Qed.

(** [hex] and the identifier parser are inverse on the natural numbers. *)
Lemma parse_can_id_of_hex can_id :
  0 <= can_id -> parse_can_id (Py.hex can_id) = Some can_id.
Proof.
  intros Hpos. unfold Py.hex.
  replace (can_id <? 0) with false by (symmetry; apply Z.ltb_ge, Hpos).
  replace (Z.abs_N can_id) with (Z.to_N can_id)
    by (destruct can_id; try reflexivity; lia).
  pose proof (Unsigned.of_to (Z.to_N can_id)) as Hround.
  unfold HexadecimalString.NilZero.string_of_uint.
  destruct (N.to_hex_uint (Z.to_N can_id)) as [|d|d|d|d|d|d|d|d|d|d|d|d|d|d|d|d] eqn:E;
    (rewrite parse_can_id_hex;
     [f_equal;
      first [ rewrite numeral_of_hex_uint, Hround; apply Z2N.id, Hpos
            | simpl in Hround; rewrite <- (Z2N.id can_id Hpos), <- Hround; reflexivity ]
     | reflexivity
     | first [reflexivity | apply string_of_uint_hex_digits]]).
Qed.

Section Frames.

Context {codec : Codec}.

(** X5.  The [can_id] text of a record reads back, with the parser of the
    input identifiers, as the identifier of its frame: the output of one run
    can be the input of another.  This holds for the natural numbers; a
    negative identifier is written with its sign before the prefix. *)
Theorem can_id_text_reads_back (db : Database.t) (timestamp : string)
  (can_id : Z) (data_bytes : list byte) (r : Decoded.t) :
  0 <= can_id ->
  In r (decode_frame db timestamp can_id data_bytes) ->
  Decoded.can_id r = Py.hex can_id
  /\ parse_can_id (Decoded.can_id r) = Some can_id.
Proof.
  intros Hpos Hin. apply decode_frame_shape in Hin as [Hid _].
  rewrite Hid. split; [reflexivity|apply parse_can_id_of_hex, Hpos].
Qed.

(** ** The message of a record *)

Lemma find_first {A : Type} (f : A -> bool) l x :
  find f l = Some x ->
  exists before after,
    l = (before ++ x :: after)%list /\ f x = true
    /\ forall y, In y before -> f y = false.
Proof.
  induction l as [|a l IH]; simpl; [discriminate|].
  destruct (f a) eqn:Ha.
  - intros [= <-]. exists [], l. repeat split; [exact Ha|contradiction].
  - intros H. destruct (IH H) as (before & after & -> & Hx & Hbefore).
    exists (a :: before), after. repeat split; [exact Hx|].
    intros y [<-|Hy]; [exact Ha|apply Hbefore, Hy].
Qed.

(** X6.  All the records of a frame carry the same timestamp, the same
    [can_id] text and the same [message_name].  The name is that of the
    first message of the database with the frame's identifier, later
    messages with the same identifier are never used, and it is
    [Unknown_...] exactly when no message has the identifier. *)
Theorem records_name_the_first_message (db : Database.t) (timestamp : string)
  (can_id : Z) (data_bytes : list byte) (r : Decoded.t) :
  In r (decode_frame db timestamp can_id data_bytes) ->
  Decoded.timestamp r = timestamp
  /\ Decoded.can_id r = Py.hex can_id
  /\ ((Decoded.message_name r = unknown_name can_id
       /\ forall m, In m (Database.messages db) -> Message.frame_id m <> can_id)
      \/ exists before m after,
           Database.messages db = (before ++ m :: after)%list
           /\ Message.frame_id m = can_id
           /\ (forall m', In m' before -> Message.frame_id m' <> can_id)
           /\ Decoded.message_name r = Message.name m).
Proof.
  intros Hin. split; [apply (decode_frame_timestamp db _ can_id data_bytes), Hin|].
  split; [apply (decode_frame_shape db timestamp can_id data_bytes), Hin|].
  unfold decode_frame, find_message in Hin.
  destruct (find _ (Database.messages db)) as [m|] eqn:Hfind.
  - right. apply find_first in Hfind as (before & after & Hl & Hm & Hbefore).
    exists before, m, after. split; [exact Hl|]. split; [apply Z.eqb_eq, Hm|].
    split; [intros m' Hm'; apply Z.eqb_neq, Hbefore, Hm'|].
    apply decode_signals_shape in Hin. tauto.
  - left. destruct Hin as [<-|[]]. split; [reflexivity|].
    intros m Hm. apply Z.eqb_neq. apply (find_none _ _ Hfind m Hm).
Qed.

End Frames.

(** ** Which data fields are accepted *)

Lemma normalized_match_hex t : normalized t = true -> Py.match_hex t = true.
Proof.
  unfold normalized. rewrite !andb_true_iff. intros [[Hne _] Hhex].
  destruct t as [|c s]; [discriminate|]. simpl in *.
  apply andb_true_iff in Hhex as [-> Hs].
  rewrite (hex_digits_to_end_hex s Hs). reflexivity.
Qed.

Lemma normalize_data_field_of_stripped data :
  normalized (stripped data) = true ->
  normalize_data_field data = Ok (stripped data).
Proof.
  intros H. rewrite normalize_data_field_stripped.
  rewrite (normalized_match_hex _ H).
  unfold normalized in H. rewrite !andb_true_iff in H.
  destruct H as [[_ ->] _]. reflexivity.
Qed.

(** X7.  [normalize_data_field] returns exactly when what is left of the
    field, once the quotes, the white space and the [0x] are removed, is a
    non-empty string of an even number of hexadecimal digits, and it then
    returns that string.  In every other case it raises a [ValueError] whose
    message begins with [Failed to normalize data field: ], and no other
    exception. *)
Theorem normalize_data_field_accepts (data : string) :
  (forall t,
      normalize_data_field data = Ok t
      <-> t = stripped data /\ normalized (stripped data) = true)
  /\ (normalized (stripped data) = false ->
      exists msg,
        normalize_data_field data
        = Raise (ValueError ("Failed to normalize data field: " ++ msg))).
Proof.
  split.
  - intros t. split.
    + intros H. apply normalize_data_field_ok in H as [-> H]. tauto.
    + intros [-> H]. apply normalize_data_field_of_stripped, H.
  - intros Hnot. rewrite normalize_data_field_stripped.
    destruct (negb (Nat.even (String.length (stripped data)))) eqn:Heven;
      [unfold normalize_failed; eauto|].
    destruct (negb (Py.match_hex (stripped data))) eqn:Hm;
      [unfold normalize_failed; eauto|].
    exfalso. apply negb_false_iff in Heven, Hm.
    assert (H : normalize_data_field data = Ok (stripped data)).
    { rewrite normalize_data_field_stripped, Heven, Hm. reflexivity. }
    apply normalize_data_field_ok in H as [_ H]. congruence.
Qed.

(** ** Which rows are accepted *)

Lemma fromhex_length s :
  (forall data_bytes,
      Py.fromhex s = Some data_bytes ->
      String.length s = (2 * List.length data_bytes)%nat)
  /\ (forall a data_bytes,
        Py.fromhex (String a s) = Some data_bytes ->
        String.length (String a s) = (2 * List.length data_bytes)%nat).
Proof.
  induction s as [|b s [IH1 IH2]].
  - split; [intros bs [= <-]; reflexivity|]. intros a bs H. discriminate.
  - split; [apply IH2|]. intros a bs. cbn [Py.fromhex].
    destruct (Py.is_hex_digit a && Py.is_hex_digit b); [|discriminate].
    destruct (Py.digit_value a); [|discriminate].
    destruct (Py.digit_value b); [|discriminate].
    destruct (Py.fromhex s) as [bs'|] eqn:Hs; [|discriminate].
    intros [= <-]. simpl. rewrite (IH1 bs' eq_refl). lia.
Qed.

Lemma normalized_fromhex t :
  normalized t = true -> exists data_bytes, Py.fromhex t = Some data_bytes.
Proof.
  unfold normalized. rewrite !andb_true_iff. intros [[_ Heven] Hhex].
  apply fromhex_hex_digits; assumption.
Qed.

Lemma stripped_of_empty data : Py.is_empty data = true -> stripped data = "".
Proof. destruct data; [reflexivity|discriminate]. Qed.

Lemma accepted_timestamp row timestamp can_id :
  (exists data_bytes, read_row row = Accept timestamp can_id data_bytes) ->
  exists timestamp_field,
    timestamp = clean timestamp_field /\ Py.is_empty timestamp = false.
Proof.
  intros [bs H]. pose proof H as Hacc.
  apply read_row_accept in H as (tf & cf & d & t & Htf & Hcf & Hd & Hts & _).
  exists tf. split; [exact Hts|].
  unfold read_row in Hacc. rewrite Htf, Hcf, Hd in Hacc. rewrite <- Hts in Hacc.
  destruct (Py.is_empty timestamp); [discriminate|reflexivity].
Qed.

(** X8.  A row gives a frame exactly when its three fields are present,
    its timestamp is not empty once cleaned, its identifier is a numeral and
    its data field is accepted by the normalization; the frame then has the
    cleaned timestamp and the parsed identifier.  In particular the
    conversion of a normalized field to bytes never fails. *)
Theorem row_is_accepted_iff (row : Row.t) (timestamp : string) (can_id : Z) :
  (exists data_bytes, read_row row = Accept timestamp can_id data_bytes)
  <-> exists timestamp_field can_id_field data,
        Row.timestamp row = Some timestamp_field
        /\ Row.can_id row = Some can_id_field
        /\ Row.data row = Some data
        /\ timestamp = clean timestamp_field
        /\ Py.is_empty timestamp = false
        /\ parse_can_id (clean can_id_field) = Some can_id
        /\ normalized (stripped data) = true.
Proof.
  split.
  - intros [bs H]. pose proof H as Hacc.
    apply read_row_accept in H as (tf & cf & d & t & Htf & Hcf & Hd & Hts & Hid & Hn & _).
    exists tf, cf, d. repeat split; try assumption.
    + unfold read_row in Hacc. rewrite Htf, Hcf, Hd in Hacc. rewrite <- Hts in Hacc.
      destruct (Py.is_empty timestamp); [discriminate|reflexivity].
    + apply normalize_data_field_ok in Hn as [-> Hn]. exact Hn.
  - intros (tf & cf & d & Htf & Hcf & Hd & Hts & Hne & Hid & Hn).
    destruct (normalized_fromhex _ Hn) as [bs Hbs]. exists bs.
    unfold read_row. rewrite Htf, Hcf, Hd, <- Hts, Hne, Hid.
    rewrite (normalize_data_field_of_stripped d Hn), Hbs.
    assert (Hc : Py.is_empty (clean cf) = false).
    { destruct (clean cf); [discriminate Hid|reflexivity]. }
    assert (Hdne : Py.is_empty d = false).
    { destruct (Py.is_empty d) eqn:E; [|reflexivity].
      rewrite (stripped_of_empty d E) in Hn. discriminate. }
    rewrite Hc, Hdne. reflexivity.
Qed.

(** X9.  The payload of an accepted row has one byte for every two
    hexadecimal digits left in its data field, and at least one byte. *)
Theorem payload_has_half_the_digits (row : Row.t) (timestamp : string)
  (can_id : Z) (data_bytes : list byte) (data : string) :
  read_row row = Accept timestamp can_id data_bytes ->
  Row.data row = Some data ->
  String.length (stripped data) = (2 * List.length data_bytes)%nat
  /\ (1 <= List.length data_bytes)%nat.
Proof.
  intros H Hdata.
  apply read_row_accept in H as (tf & cf & d & t & _ & _ & Hd & _ & _ & Hn & Hb).
  rewrite Hdata in Hd. injection Hd as <-.
  apply normalize_data_field_ok in Hn as [-> Hn].
  pose proof (proj1 (fromhex_length (stripped data)) data_bytes Hb) as Hlen.
  split; [exact Hlen|].
  apply normalized_nonempty in Hn.
  destruct (stripped data); [discriminate|]. simpl in Hlen. lia.
Qed.

(** ** The timestamp of a record *)

Section Timestamps.

Context {codec : Codec}.

(** X10.  The timestamp of every record of the result is not empty and
    holds no double quote. *)
Theorem timestamps_are_not_empty (fieldnames : option (list string))
  (rows : list Row.t) (db : Database.t) (st : State) (r : Decoded.t) :
  decode_can_data fieldnames rows db = Returned st ->
  In r (decoded_data st) ->
  Py.is_empty (Decoded.timestamp r) = false
  /\ all_chars (fun c => negb (Py.is_quote c)) (Decoded.timestamp r) = true.
Proof.
  intros H Hin.
  destruct (record_origin _ _ _ _ _ H Hin) as (row & ts & id & bs & _ & Hrow & Hr).
  apply decode_frame_timestamp in Hr. rewrite Hr.
  assert (Hacc : exists data_bytes, read_row row = Accept ts id data_bytes) by eauto.
  apply accepted_timestamp in Hacc as (tf & -> & Hne).
  split; [exact Hne|]. unfold clean, Py.remove_quotes. apply all_chars_filter.
Qed.

End Timestamps.

(** ** The output file *)

(** X11.  [save_decoded_data] writes the eight column names and then one
    row per record, in order.  A row repeats the timestamp, the [can_id]
    and the [message_name] of its record.  Its [signal_name],
    [physical_value] and [state] are never empty: an absent value is written
    [N/A], and so is an empty signal name or an empty state.  An absent
    [raw_value] is written [N/A] and an absent [unit] as the empty string. *)
Theorem save_writes_one_row_per_record (decoded_data : list Decoded.t) :
  fst (save_decoded_data decoded_data) = headers
  /\ List.length (snd (save_decoded_data decoded_data)) = List.length decoded_data
  /\ forall i r,
       nth_error decoded_data i = Some r ->
       exists o,
         nth_error (snd (save_decoded_data decoded_data)) i = Some o
         /\ Output.timestamp o = Decoded.timestamp r
         /\ Output.can_id o = Decoded.can_id r
         /\ Output.message_name o = Decoded.message_name r
         /\ Py.is_empty (Output.signal_name o) = false
         /\ Output.physical_value o <> Text ""
         /\ Output.state o <> Text ""
         /\ (Decoded.signal_name r = None \/ Decoded.signal_name r = Some "" ->
             Output.signal_name o = "N/A")
         /\ (Decoded.state r = None \/ Decoded.state r = Some (Text "") ->
             Output.state o = Text "N/A")
         /\ (Decoded.physical_value r = None -> Output.physical_value o = Text "N/A")
         /\ (Decoded.raw_value r = None -> written (Output.raw_value o) = Text "N/A")
         /\ (Decoded.unit r = None -> Output.unit o = "").
Proof.
  split; [reflexivity|]. split; [apply length_map|].
  intros i r Hr. exists (output_row r).
  split; [simpl; rewrite nth_error_map, Hr; reflexivity|].
  destruct r as [ts id mn sn rv pv stt un]. simpl.
  repeat split.
  - destruct sn as [[|c s]|]; reflexivity.
  - destruct pv; discriminate.
  - destruct stt as [[[|c s]| |]|]; discriminate.
  - intros [->| ->]; reflexivity.
  - intros [->| ->]; reflexivity.
  - intros ->. reflexivity.
  - intros ->. reflexivity.
  - intros ->. reflexivity.
Qed.

(** ** [main] *)

(** X12.  [main] calls [save_decoded_data] exactly when the database
    loads, the log opens, its reader raises nowhere and its header has the
    three columns.  It then hands it the column names and one row for every
    record of every accepted row, in the order of the log; skipped rows
    leave no trace and never stop the run.  In every other case
    [save_decoded_data] is not called, so nothing is written. *)
Theorem main_saves_iff {codec : Codec} (files : Files) (header : list string)
  (written_rows : list Output.t) :
  main files = Saves header written_rows
  <-> exists db reader fieldnames,
        dbc_file files = Some (Ok db)
        /\ csv_file files = Some reader
        /\ Reader.fieldnames reader = inr fieldnames
        /\ complete fieldnames
        /\ Reader.stops reader = None
        /\ header = headers
        /\ written_rows
           = map output_row (flat_map (row_records db) (Reader.rows reader)).
Proof.
  unfold main, parse_dbc, decode_can_data_from. split.
  - destruct (dbc_file files) as [[db|e]|]; try discriminate.
    destruct (csv_file files) as [reader|]; [|discriminate].
    destruct (Reader.fieldnames reader) as [err|fieldnames] eqn:Hfn; [discriminate|].
    destruct (decode_can_data fieldnames (Reader.rows reader) db)
      as [st|e st] eqn:Hrun; [|discriminate].
    destruct (Reader.stops reader) as [err|] eqn:Hstop; [discriminate|].
    simpl. intros [= <- <-]. exists db, reader, fieldnames.
    pose proof (returned_is_fold _ _ _ _ Hrun) as Hst.
    destruct (fold_process_row db (Reader.rows reader) initial) as (Hd & _).
    rewrite Hst, Hd. simpl.
    split; [reflexivity|]. split; [reflexivity|]. split; [exact Hfn|].
    split; [|repeat split; exact Hstop].
    destruct (incomplete_or_complete fieldnames) as [Hc|Hc]; [exact Hc|].
    destruct (incomplete_raises fieldnames (Reader.rows reader) db Hc) as [e He].
    rewrite He in Hrun. discriminate.
  - intros (db & reader & fieldnames & -> & -> & -> & Hc & -> & -> & ->).
    rewrite (complete_returns fieldnames (Reader.rows reader) db Hc).
    destruct (fold_process_row db (Reader.rows reader) initial) as (Hd & _).
    simpl. rewrite Hd. reflexivity.
Qed.

(** ** The record without signal comes last *)

(** The loop over the decoded signals, item by item: its records are those
    of the items before the one it stops at, if it stops. *)
Lemma signal_records_exact timestamp can_id message d :
  Forall2 (fun item r => signal_record timestamp can_id message item = Ok r)
    (firstn (List.length (fst (signal_records timestamp can_id message d))) d)
    (fst (signal_records timestamp can_id message d))
  /\ match snd (signal_records timestamp can_id message d) with
     | None =>
         List.length (fst (signal_records timestamp can_id message d))
         = List.length d
     | Some e =>
         exists item,
           nth_error d (List.length (fst (signal_records timestamp can_id message d)))
           = Some item
           /\ signal_record timestamp can_id message item = Raise e
     end.
Proof.
  induction d as [|item d [IHrs IHend]]; cbn [signal_records].
  - simpl. split; [constructor|reflexivity].
  - destruct (signal_record timestamp can_id message item) as [r|e] eqn:Hr.
    + destruct (signal_records timestamp can_id message d) as [rs e']. simpl in *.
      split; [constructor; assumption|].
      destruct e' as [e'|]; [exact IHend|f_equal; exact IHend].
    + simpl. split; [constructor|]. exists item. split; [reflexivity|exact Hr].
Qed.

(** X13.  For a known frame whose decoder returns, the records are those
    of the decoded signals in order, each the record the body of the loop
    makes for its item, up to the first item on which the body raises.  When
    there is none, there is no other record.  When there is one, the records
    appended before it are kept, one record without signal follows them, and
    the items after it give no record. *)
Theorem record_without_signal_is_last {codec : Codec} (db : Database.t)
  (timestamp : string) (can_id : Z) (data_bytes : list byte)
  (message : Message.t) (d : SignalDict) :
  find_message db can_id = Some message ->
  decode message data_bytes = Ok d ->
  exists rs,
    Forall2 (fun item r => signal_record timestamp can_id message item = Ok r)
      (firstn (List.length rs) d) rs
    /\ (forall r, In r rs -> of_signal r)
    /\ ((List.length rs = List.length d
         /\ decode_frame db timestamp can_id data_bytes = rs)
        \/ (exists item e,
              nth_error d (List.length rs) = Some item
              /\ signal_record timestamp can_id message item = Raise e
              /\ decode_frame db timestamp can_id data_bytes
                 = (rs ++ [message_only timestamp can_id (Message.name message)])%list
              /\ no_signal (message_only timestamp can_id (Message.name message)))).
Proof.
  intros Hfind Hd. unfold decode_frame, decode_signals. rewrite Hfind, Hd.
  destruct (signal_records_exact timestamp can_id message d) as [Hrs Hend].
  assert (Hshape : forall r,
            In r (fst (signal_records timestamp can_id message d)) -> of_signal r).
  { intros r Hin. apply signal_records_item in Hin as (item & _ & Hrec).
    apply signal_record_shape in Hrec. tauto. }
  destruct (signal_records timestamp can_id message d) as [rs [e|]]; simpl in *;
    exists rs; (split; [exact Hrs|]); (split; [exact Hshape|]).
  - right. destruct Hend as (item & Hnth & Hraise). exists item, e.
    repeat split; assumption.
  - left. split; [exact Hend|reflexivity].
Qed.

(** ** The further properties on the example database *)

Lemma example_rows_return :
  decode_can_data (Some Example.header) Example.rows Example.db
  = Returned (fold_left (process_row Example.db) Example.rows initial).
Proof. reflexivity. Defined.

Lemma example_status_in_result :
  In Example.status_3
    (decoded_data (fold_left (process_row Example.db) Example.rows initial)).
Proof. right. left. reflexivity. Defined.

Lemma example_status_in_frame :
  In Example.status_3 (decode_frame Example.db "0.0" 291 [xe8; x03; x03]).
Proof. right. left. reflexivity. Defined.

Lemma counters_count_the_rows_witness :
  decode_can_data (Some Example.header) Example.rows Example.db
  = Returned (fold_left (process_row Example.db) Example.rows initial)
  /\ row_count (fold_left (process_row Example.db) Example.rows initial) = 2%nat
  /\ skipped_rows (fold_left (process_row Example.db) Example.rows initial) = 1%nat.
Proof.
  split; [exact example_rows_return|].
  destruct (counters_count_the_rows (Some Example.header) Example.rows Example.db
              _ example_rows_return) as (Hc & Hs & _).
  split; [exact Hc|exact Hs].
Defined.

Lemma records_follow_the_rows_witness :
  decode_can_data (Some Example.header) Example.rows Example.db
  = Returned (fold_left (process_row Example.db) Example.rows initial)
  /\ decoded_data (fold_left (process_row Example.db) Example.rows initial)
     = flat_map (row_records Example.db) Example.rows.
Proof.
  split; [exact example_rows_return|].
  exact (records_follow_the_rows (Some Example.header) Example.rows Example.db
           _ example_rows_return).
Defined.

Lemma records_have_two_shapes_witness :
  decode_can_data (Some Example.header) Example.rows Example.db
  = Returned (fold_left (process_row Example.db) Example.rows initial)
  /\ In Example.status_3
       (decoded_data (fold_left (process_row Example.db) Example.rows initial))
  /\ (no_signal Example.status_3 \/ of_signal Example.status_3).
Proof.
  split; [exact example_rows_return|]. split; [exact example_status_in_result|].
  exact (records_have_two_shapes (Some Example.header) Example.rows Example.db
           _ Example.status_3 example_rows_return example_status_in_result).
Defined.

Lemma can_id_text_reads_back_witness :
  0 <= 291
  /\ In Example.status_3 (decode_frame Example.db "0.0" 291 [xe8; x03; x03])
  /\ Decoded.can_id Example.status_3 = "0x123"
  /\ parse_can_id (Decoded.can_id Example.status_3) = Some 291.
Proof.
  assert (Hpos : 0 <= 291) by lia.
  split; [exact Hpos|]. split; [exact example_status_in_frame|].
  exact (can_id_text_reads_back Example.db "0.0" 291 [xe8; x03; x03]
           Example.status_3 Hpos example_status_in_frame).
Defined.

Lemma records_name_the_first_message_witness :
  In Example.status_3 (decode_frame Example.db "0.0" 291 [xe8; x03; x03])
  /\ Decoded.timestamp Example.status_3 = "0.0"
  /\ Decoded.can_id Example.status_3 = "0x123".
Proof.
  split; [exact example_status_in_frame|].
  destruct (records_name_the_first_message Example.db "0.0" 291 [xe8; x03; x03]
              Example.status_3 example_status_in_frame) as (Ht & Hid & _).
  split; [exact Ht|exact Hid].
Defined.

Lemma payload_has_half_the_digits_witness :
  read_row (Example.row "0.0" "0x123" "E8 03 03") = Accept "0.0" 291 [xe8; x03; x03]
  /\ Row.data (Example.row "0.0" "0x123" "E8 03 03") = Some "E8 03 03"
  /\ String.length (stripped "E8 03 03") = (2 * 3)%nat
  /\ (1 <= 3)%nat.
Proof.
  split; [reflexivity|]. split; [reflexivity|].
  exact (payload_has_half_the_digits (Example.row "0.0" "0x123" "E8 03 03")
           "0.0" 291 [xe8; x03; x03] "E8 03 03" eq_refl eq_refl).
Defined.

Lemma timestamps_are_not_empty_witness :
  decode_can_data (Some Example.header) Example.rows Example.db
  = Returned (fold_left (process_row Example.db) Example.rows initial)
  /\ In Example.status_3
       (decoded_data (fold_left (process_row Example.db) Example.rows initial))
  /\ Py.is_empty (Decoded.timestamp Example.status_3) = false
  /\ all_chars (fun c => negb (Py.is_quote c)) (Decoded.timestamp Example.status_3)
     = true.
Proof.
  split; [exact example_rows_return|]. split; [exact example_status_in_result|].
  exact (timestamps_are_not_empty (Some Example.header) Example.rows Example.db
           _ Example.status_3 example_rows_return example_status_in_result).
Defined.

Lemma record_without_signal_is_last_witness :
  find_message Example.db 291 = Some Example.EngineData
  /\ decode Example.EngineData [xe8; x03; x03]
     = Ok [("RPM", VFloat 250); ("Status", VInt 3)]
  /\ exists rs,
       Forall2 (fun item r => signal_record "0.0" 291 Example.EngineData item = Ok r)
         (firstn (List.length rs) [("RPM", VFloat 250); ("Status", VInt 3)]) rs
       /\ (forall r, In r rs -> of_signal r).
Proof.
  assert (Hd : decode Example.EngineData [xe8; x03; x03]
               = Ok [("RPM", VFloat 250); ("Status", VInt 3)])
    by (vm_compute; reflexivity).
  split; [reflexivity|]. split; [exact Hd|].
  destruct (record_without_signal_is_last Example.db "0.0" 291 [xe8; x03; x03]
              Example.EngineData [("RPM", VFloat 250); ("Status", VInt 3)]
              eq_refl Hd) as (rs & Hrs & Hshape & _).
  exists rs. split; [exact Hrs|exact Hshape].
Defined.
